(** * remote: sign-in, cookie persistence and session construction

    A shallow embedding of the Go package [remote] (session.go and
    options.go).  Go strings are byte strings and are modelled by [string];
    a Go [map[string]T] is a [gmap string T]; a pointer that may be nil is an
    [option]; a function returning [(v, err)] returns a pair whose second
    component is an [option error].  A run-time panic is an explicit
    outcome.  The operating system (files, terminal, user database) and the
    network are a [World] that every effectful function threads through.
    The third-party packages the code calls (net/url, cookiejar, gob, yaml)
    are an interface, [Platform]; the theorems hold for every
    implementation of it.  Not modelled: the diagnostic [fmt.Printf], the
    prompts written to the terminal, and the thin wrappers [Context] and
    [DatastoreInfo] (over remote_api) and [NewCommand] (over docopt). *)

From Stdlib Require Import ZArith NArith String Ascii List Bool Lia.
From stdpp Require Import base option list gmap strings.

Local Open Scope string_scope.
Local Open Scope list_scope.

(** ** Errors, results and panics *)

(** Go [error] values.  [errorString] is what [errors.New] builds. *)
Inductive error : Type :=
| errorString (msg : string)
| PathError (op path msg : string)
| ErrInvalid
| EOF
| UrlError (op url : string) (cause : error)
| LibraryError (pkg msg : string).

(** The [Error()] method. *)
Fixpoint Error (e : error) : string :=
  match e with
  | errorString msg => msg
  | PathError op path msg => op +:+ " " +:+ path +:+ ": " +:+ msg
  | ErrInvalid => "invalid argument"
  | EOF => "EOF"
  | UrlError op url cause => op +:+ " " +:+ url +:+ ": " +:+ Error cause
  | LibraryError pkg msg => pkg +:+ ": " +:+ msg
  end.

(** What a library call hands back: a value or an error. *)
Inductive result (A : Type) : Type :=
| Ok (a : A)
| Err (e : error).
Arguments Ok {A} a.
Arguments Err {A} e.

(** How a call ends: it returns, or the goroutine panics. *)
Inductive outcome (A : Type) : Type :=
| Returns (a : A)
| Panics (msg : string).
Arguments Returns {A} a.
Arguments Panics {A} msg.

(** Where a function is after a block that may return early. *)
Inductive flow (A : Type) : Type :=
| Return (err : option error)
| Continue (a : A).
Arguments Return {A} err.
Arguments Continue {A} a.

Definition nilDereference : string :=
  "runtime error: invalid memory address or nil pointer dereference".

(** ** package strings *)

(** [strings.Split(s, sep)] for a one-byte separator, which is what every
    call site passes.  The result always has one more element than [s] has
    occurrences of [sep]. *)
Fixpoint strings_Split (s : string) (sep : ascii) : list string :=
  match s with
  | EmptyString => [EmptyString]
  | String c rest =>
      if Ascii.eqb c sep then EmptyString :: strings_Split rest sep
      else match strings_Split rest sep with
           | [] => [String c EmptyString]
           | piece :: pieces => String c piece :: pieces
           end
  end.

Definition newline : ascii := "010"%char.

(** ** options.go *)

(** The dynamic values docopt stores in its result map. *)
Inductive value : Type :=
| VNil
| VBool (b : bool)
| VString (s : string)
| VInt (n : Z)
| VStrings (ss : list string).

Record Command : Type := { M : gmap string value }.

(** [x.(bool)] on an interface value; indexing a map with a missing key
    gives the nil interface. *)
Definition assertBool (x : option value) : outcome bool :=
  match x with
  | Some (VBool b) => Returns b
  | Some VNil | None =>
      Panics "interface conversion: interface {} is nil, not bool"
  | Some _ => Panics "interface conversion: interface {} is not bool"
  end.

(** The body of the [range terms] loop of [Command.Is], with the running
    value of [hasAll]. *)
Fixpoint Is_loop (m : gmap string value) (terms : list string)
    (hasAll : bool) : outcome bool :=
  match terms with
  | [] => Returns hasAll
  | term :: rest =>
      match assertBool (m !! term) with
      | Panics msg => Panics msg
      | Returns b => Is_loop m rest (if negb b then false else hasAll)
      end
  end.

Definition Is (command : Command) (c : string) : outcome bool :=
  let hasAll := true in
  let terms := strings_Split c " "%char in
  Is_loop (M command) terms hasAll.

(** ** package net/url: query strings *)

Definition inRange (lo hi c : ascii) : bool := Ascii.leb lo c && Ascii.leb c hi.

(** [shouldEscape(c, encodeQueryComponent)]: letters, digits and [-_.~] are
    kept, every other byte is escaped. *)
Definition shouldEscape (c : ascii) : bool :=
  negb (inRange "a" "z" c || inRange "A" "Z" c || inRange "0" "9" c
        || Ascii.eqb c "-" || Ascii.eqb c "_" || Ascii.eqb c "."
        || Ascii.eqb c "~")%char.

Definition upperhex (n : N) : ascii :=
  match String.get (N.to_nat n) "0123456789ABCDEF" with
  | Some d => d
  | None => "0"%char
  end.

Fixpoint url_QueryEscape (s : string) : string :=
  match s with
  | EmptyString => EmptyString
  | String c rest =>
      if Ascii.eqb c " " then String "+" (url_QueryEscape rest)
      else if shouldEscape c then
        String "%" (String (upperhex (N.shiftr (N_of_ascii c) 4))
                      (String (upperhex (N.land (N_of_ascii c) 15))
                         (url_QueryEscape rest)))
      else String c (url_QueryEscape rest)
  end.

(** [url.Values] is a map from key to the list of its values.  [Encode]
    walks the keys in sorted order, so the map is kept as a list sorted by
    key; [Set] replaces the values of a key. *)
Definition Values : Type := list (string * list string).

Fixpoint Values_Set (v : Values) (key val : string) : Values :=
  match v with
  | [] => [(key, [val])]
  | (k, vs) :: rest =>
      if String.eqb k key then (key, [val]) :: rest
      else if String.ltb key k then (key, [val]) :: (k, vs) :: rest
      else (k, vs) :: Values_Set rest key val
  end.

Definition encodeKey (k : string) (vs : list string) : list string :=
  map (fun val => url_QueryEscape k +:+ "=" +:+ url_QueryEscape val) vs.

Fixpoint joinAmp (parts : list string) : string :=
  match parts with
  | [] => ""
  | [p] => p
  | p :: rest => p +:+ "&" +:+ joinAmp rest
  end.

Definition Values_Encode (v : Values) : string :=
  joinAmp (concat (map (fun kv => encodeKey (fst kv) (snd kv)) v)).

(** ** Data of session.go *)

Record AppURLHandler : Type := {
  Handler_URL : string;
  StaticDir : string;
  StaticFiles : string;
  Upload : string;
  Script : string
}.

Record App : Type := {
  Application : string;
  Version : string;
  Runtime : string;
  APIVersion : string;
  Handlers : list AppURLHandler
}.

(** [http.Cookie], the fields the program ever looks at or stores. *)
Record Cookie : Type := {
  Cookie_Name : string;
  Cookie_Value : string;
  Cookie_Path : string;
  Cookie_Domain : string;
  Cookie_MaxAge : Z;
  Cookie_Secure : bool;
  Cookie_HttpOnly : bool
}.

Record CookieTray : Type := {
  Cookies : list Cookie;
  Path : string
}.

(** What identifies a cookie in a tray: its name, value and domain. *)
Definition cookieKey (c : Cookie) : string * string * string :=
  (Cookie_Name c, Cookie_Value c, Cookie_Domain c).

(** ** The libraries the package is linked against *)

Class Platform : Type := {
  (** net/url *)
  URL : Type;
  url_Parse : string -> result URL;
  (** net/http/cookiejar; [cookiejar_New] is the jar [cookiejar.New(nil)]
      returns, which holds no cookie *)
  Jar : Type;
  cookiejar_New : Jar;
  Jar_SetCookies : Jar -> URL -> list Cookie -> Jar;
  Jar_Cookies : Jar -> URL -> list Cookie;
  (** encoding/gob at type [[]CookieTray] *)
  gob_Encode : list CookieTray -> string;
  gob_Decode : string -> result (list CookieTray);
  (** gopkg.in/yaml.v2 at type [App] *)
  yaml_Unmarshal : string -> result App
}.

(** ** The world outside the process *)

Record Terminal : Type := {
  isTerminal : bool;          (* is file descriptor 0 a terminal? *)
  rawMode : bool;             (* its current mode *)
  input : list string         (* the lines still to be typed *)
}.

(** What the network answers to a GET. *)
Inductive HttpReply : Type :=
| NetFail (e : error)
| Reply (redirect : bool) (setCookies : list Cookie) (body : result string).

Record World : Type := {
  files : gmap string string;     (* path to contents *)
  denied : gset string;           (* paths the process may not touch *)
  homeDir : option string;        (* the current user's home, if known *)
  tty : Terminal;
  remote : string -> HttpReply;   (* the answer to a GET of a URL *)
  requests : list string          (* the GETs sent so far, oldest first *)
}.

Definition setFiles (fs : gmap string string) (w : World) : World :=
  {| files := fs; denied := denied w; homeDir := homeDir w; tty := tty w;
     remote := remote w; requests := requests w |}.

Definition setTty (t : Terminal) (w : World) : World :=
  {| files := files w; denied := denied w; homeDir := homeDir w; tty := t;
     remote := remote w; requests := requests w |}.

Definition logRequest (url : string) (w : World) : World :=
  {| files := files w; denied := denied w; homeDir := homeDir w; tty := tty w;
     remote := remote w; requests := requests w ++ [url] |}.

(** ** Computations: state passing over the world, with panics *)

Definition Go (A : Type) : Type := World -> outcome A * World.

Definition ret {A : Type} (a : A) : Go A := fun w => (Returns a, w).

Definition bind {A B : Type} (m : Go A) (k : A -> Go B) : Go B :=
  fun w =>
    match m w with
    | (Returns a, w') => k a w'
    | (Panics msg, w') => (Panics msg, w')
    end.

Definition panic {A : Type} (msg : string) : Go A := fun w => (Panics msg, w).

Notation "'let*' x ':=' m 'in' k" := (bind m (fun x => k))
  (at level 10, x pattern, m at level 100, k at level 200).

(** Following a pointer. *)
Definition deref {A : Type} (p : option A) : Go A :=
  match p with
  | Some a => ret a
  | None => panic nilDereference
  end.

(** ** package os, io/ioutil, os/user *)

Definition notExist (op name : string) : error :=
  PathError op name "no such file or directory".
Definition permission (op name : string) : error :=
  PathError op name "permission denied".

(** An open file is known by its name; a nil [*os.File] is [None]. *)
Abbreviation File := string (only parsing).

Definition ioutil_ReadFile (name : string) : Go (string * option error) :=
  fun w =>
    if decide (name ∈ denied w) then (Returns ("", Some (permission "open" name)), w)
    else match files w !! name with
         | Some contents => (Returns (contents, None), w)
         | None => (Returns ("", Some (notExist "open" name)), w)
         end.

Definition os_Open (name : string) : Go (option File * option error) :=
  fun w =>
    if decide (name ∈ denied w) then (Returns (None, Some (permission "open" name)), w)
    else match files w !! name with
         | Some _ => (Returns (Some name, None), w)
         | None => (Returns (None, Some (notExist "open" name)), w)
         end.

(** [os.Create] truncates the file or makes an empty one. *)
Definition os_Create (name : string) : Go (option File * option error) :=
  fun w =>
    if decide (name ∈ denied w) then (Returns (None, Some (permission "open" name)), w)
    else (Returns (Some name, None), setFiles (<[name := ""]> (files w)) w).

Definition os_Remove (name : string) : Go (option error) :=
  fun w =>
    if decide (name ∈ denied w) then (Returns (Some (permission "remove" name)), w)
    else match files w !! name with
         | Some _ => (Returns None, setFiles (delete name (files w)) w)
         | None => (Returns (Some (notExist "remove" name)), w)
         end.

(** [f.Write(data)]: on a nil file it fails with [os.ErrInvalid]. *)
Definition File_Write (f : option File) (data : string) : Go (option error) :=
  fun w =>
    match f with
    | None => (Returns (Some ErrInvalid), w)
    | Some name =>
        (Returns None,
         setFiles (<[name := default "" (files w !! name) +:+ data]> (files w)) w)
    end.

(** Everything that can be read from an open file. *)
Definition File_contents (f : File) : Go (option string) :=
  fun w => (Returns (files w !! f), w).

Record User : Type := { HomeDir : string }.

Definition user_Current : Go (option User * option error) :=
  fun w =>
    match homeDir w with
    | Some h => (Returns (Some {| HomeDir := h |}, None), w)
    | None => (Returns (None, Some (LibraryError "user" "Current not implemented")), w)
    end.

(** ** package terminal (golang.org/x/crypto/ssh/terminal) *)

(** The saved mode [MakeRaw] returns. *)
Record State : Type := { savedRaw : bool }.

Definition notATerminal : error :=
  LibraryError "terminal" "inappropriate ioctl for device".

Definition terminal_MakeRaw : Go (option State * option error) :=
  fun w =>
    if isTerminal (tty w) then
      (Returns (Some {| savedRaw := rawMode (tty w) |}, None),
       setTty {| isTerminal := true; rawMode := true; input := input (tty w) |} w)
    else (Returns (None, Some notATerminal), w).

Definition terminal_Restore (state : option State) : Go (option error) :=
  let* st := deref state in
  fun w =>
    (Returns None,
     setTty {| isTerminal := isTerminal (tty w); rawMode := savedRaw st;
               input := input (tty w) |} w).

(** [t.ReadLine()] and [t.ReadPassword(prompt)] both take the next line
    typed; at end of input they fail with [io.EOF]. *)
Definition Terminal_ReadLine : Go (string * option error) :=
  fun w =>
    match input (tty w) with
    | line :: rest =>
        (Returns (line, None),
         setTty {| isTerminal := isTerminal (tty w); rawMode := rawMode (tty w);
                   input := rest |} w)
    | [] => (Returns ("", Some EOF), w)
    end.

Definition Terminal_ReadPassword (prompt : string) : Go (string * option error) :=
  Terminal_ReadLine.

(** ** package net/http *)

Record Response : Type := {
  Response_redirect : bool;
  Response_Cookies : list Cookie;
  Body : result string
}.

Definition ioutil_ReadAll (body : result string) : string * option error :=
  match body with
  | Ok contents => (contents, None)
  | Err e => ("", Some e)
  end.

(** [http.Get]: the default client, which has no cookie jar and follows
    redirects; [remote] answers with what comes back in the end. *)
Definition http_Get (url : string) : Go (option Response * option error) :=
  fun w =>
    match remote w url with
    | NetFail e => (Returns (None, Some e), logRequest url w)
    | Reply r cs body =>
        (Returns (Some {| Response_redirect := r; Response_Cookies := cs;
                          Body := body |}, None), logRequest url w)
    end.

(** ** session.go *)

Section Remote.
Context `{Platform}.

(** [http.Client].  The only redirect policy the package installs is the
    function that always returns [errors.New(msg)]; [None] is the default
    policy. *)
Record Client : Type := {
  CheckRedirect : option string;
  Client_Jar : Jar
}.

(** [client.Get].  The cookies of the reply go into the jar before the
    redirect policy is asked, so they are kept even when the policy turns
    the redirect down and [Get] reports that as an error.  The jar is
    shared with the caller; the updated jar is returned with the result. *)
Definition Client_Get (c : Client) (url : string)
    : Go (Jar * option Response * option error) :=
  match url_Parse url with
  | Err e => ret (Client_Jar c, None, Some e)
  | Ok u =>
      fun w =>
        match remote w url with
        | NetFail e => (Returns (Client_Jar c, None, Some e), logRequest url w)
        | Reply r cs body =>
            let jar := match cs with
                       | [] => Client_Jar c
                       | _ :: _ => Jar_SetCookies (Client_Jar c) u cs
                       end in
            let resp := {| Response_redirect := r; Response_Cookies := cs;
                           Body := body |} in
            let err := match r, CheckRedirect c with
                       | true, Some msg => Some (UrlError "Get" url (errorString msg))
                       | _, _ => None
                       end in
            (Returns (jar, Some resp, err), logRequest url w)
        end
  end.

Definition readApp (path : string) : Go (option App * option error) :=
  let* (bytes, err) := ioutil_ReadFile (path +:+ "/app.yaml") in
  match err with
  | None =>
      match yaml_Unmarshal bytes with
      | Ok app => ret (Some app, None)
      | Err err => ret (None, Some err)
      end
  | Some _ => ret (None, err)
  end.

Record Session : Type := {
  Local : bool;
  Source : string;
  ServiceHost : string;
  ServiceScheme : string;
  ServiceURL : option URL;
  AppHost : string;
  AppScheme : string;
  AppURL : option URL;
  Session_App : option App;
  client : option Client
}.

Definition cookieFileName (session : Session) : Go string :=
  let* (u, _) := user_Current in
  let* u := deref u in
  ret (HomeDir u +:+ "/.cookies").

(** The [range cookieTrays] loop of [NewSession]: a tray whose path does not
    parse is skipped. *)
Fixpoint installTrays (jar : Jar) (cookieTrays : list CookieTray) : Jar :=
  match cookieTrays with
  | [] => jar
  | cookieTray :: rest =>
      match url_Parse (Path cookieTray) with
      | Ok url => installTrays (Jar_SetCookies jar url (Cookies cookieTray)) rest
      | Err _ => installTrays jar rest
      end
  end.

(** [gob.NewDecoder(f).Decode(&cookieTrays)]. *)
Definition Decoder_Decode (f : File) : Go (list CookieTray * option error) :=
  let* contents := File_contents f in
  match contents with
  | None => ret ([], Some EOF)
  | Some data =>
      match gob_Decode data with
      | Ok trays => ret (trays, None)
      | Err e => ret ([], Some e)
      end
  end.

(** [gob.NewEncoder(f).Encode(cookieTrays)]. *)
Definition Encoder_Encode (f : option File) (cookieTrays : list CookieTray)
    : Go (option error) :=
  File_Write f (gob_Encode cookieTrays).

(** The cookie read of [NewSession]: open the cookie file and decode it
    into [cookieTrays]; the pair is [cookieTrays] and [readerr]. *)
Definition loadTrays (session : Session) : Go (list CookieTray * option error) :=
  let cookieTrays : list CookieTray := [] in
  let* name := cookieFileName session in
  let* (f, readerr) := os_Open name in
  match f, readerr with
  | Some f, None => Decoder_Decode f
  | _, _ => ret (cookieTrays, readerr)
  end.

(** The cookie write that ends [Signin]: create the cookie file and encode
    [cookieTrays] into it.  The error of [os.Create] is dropped; when it
    fails [f] is nil and the write fails in its turn. *)
Definition saveTrays (session : Session) (cookieTrays : list CookieTray)
    : Go (option error) :=
  let* name := cookieFileName session in
  let* (f, err) := os_Create name in
  Encoder_Encode f cookieTrays.

(** The [if local { ... } else { ... }] block of [NewSession]: the values of
    [ServiceHost], [ServiceScheme], [AppHost] and [AppScheme].  In remote
    mode it reads [app.Application], whether or not [readApp] gave an
    [app]. *)
Definition endpoints (local : bool) (app : option App)
    : Go (string * string * string * string) :=
  if local then ret ("localhost:8000", "http", "localhost:8080", "http")
  else
    let* a := deref app in
    ret ("appengine.google.com", "https",
         Application a +:+ ".appspot.com", "https").

Definition NewSession (path : string) (local : bool)
    : Go (option Session * option error) :=
  let* (app, err) := readApp path in
  (* build the session object *)
  let* (serviceHost, serviceScheme, appHost, appScheme) := endpoints local app in
  match url_Parse (serviceScheme +:+ "://" +:+ serviceHost) with
  | Err err => ret (None, Some err)
  | Ok serviceURL =>
      match url_Parse (appScheme +:+ "://" +:+ appHost) with
      | Err err => ret (None, Some err)
      | Ok appURL =>
          let session0 :=
            {| Local := local; Source := ""; ServiceHost := serviceHost;
               ServiceScheme := serviceScheme; ServiceURL := Some serviceURL;
               AppHost := appHost; AppScheme := appScheme;
               AppURL := Some appURL; Session_App := app; client := None |} in
          (* try to read a cookie file, but if we fail, go on without it *)
          (* [jar, err := cookiejar.New(nil)]: [err], which held the error
             of [readApp] and then those of [url.Parse], is now nil *)
          let jar := cookiejar_New in
          let err : option error := None in
          let* (cookieTrays, readerr) := loadTrays session0 in
          let jar :=
            match readerr with
            | None => installTrays jar cookieTrays
            | Some _ => jar
            end in
          (* finish by creating the session client *)
          ret (Some {| Local := local; Source := ""; ServiceHost := serviceHost;
                       ServiceScheme := serviceScheme;
                       ServiceURL := Some serviceURL;
                       AppHost := appHost; AppScheme := appScheme;
                       AppURL := Some appURL; Session_App := app;
                       client := Some {| CheckRedirect := None;
                                         Client_Jar := jar |} |}, err)
      end
  end.

Definition appValues (session : Session) : Go Values :=
  let* a := deref (Session_App session) in
  let values := Values_Set [] "app_id" (Application a) in
  let values := Values_Set values "version" (Version a) in
  ret values.

(** Read credentials from standard input. *)
Definition readCredentials : Go (string * string * option error) :=
  let* (state, err) := terminal_MakeRaw in
  let* (username, password, err) :=
    match err with
    | None =>
        let* (username, err) := Terminal_ReadLine in
        let* (password, err) :=
          match err with
          | None => Terminal_ReadPassword "Password: "
          | Some _ => ret ("", err)
          end in
        let* _ := terminal_Restore state in
        ret (username, password, err)
    | Some _ => ret ("", "", err)
    end in
  ret (username, password, None).

(** The identity provider answers with lines [key=value].  The body of the
    [range lines] loop: a line that does not split into exactly two pieces
    at [=] is ignored, and a later line overrides an earlier one with the
    same key. *)
Definition addLine (values : gmap string string) (line : string)
    : gmap string string :=
  let keyvalue := strings_Split line "="%char in
  match keyvalue with
  | [key; val] => <[key := val]> values
  | _ => values
  end.

Definition parseValues (contents : string) : gmap string string :=
  let lines := strings_Split contents newline in
  foldl addLine ∅ lines.

Definition clientLoginURL (username password : string) : string :=
  let v := [] in
  let v := Values_Set v "Email" username in
  let v := Values_Set v "Passwd" password in
  let v := Values_Set v "source" "Google-appcfg-1.9.17" in
  let v := Values_Set v "accountType" "HOSTED_OR_GOOGLE" in
  let v := Values_Set v "service" "ah" in
  "https://www.google.com/accounts/ClientLogin?" +:+ Values_Encode v.

(** The query of the two [/_ah/login] requests. *)
Definition loginValues (local : bool) (username : string)
    (values : gmap string string) : Values :=
  let v2 := [] in
  let v2 := Values_Set v2 "continue" "http://localhost" in
  let v2 := Values_Set v2 "auth" (default "" (values !! "Auth")) in
  if local then
    let v2 := Values_Set v2 "admin" "True" in
    let v2 := Values_Set v2 "action" "Login" in
    Values_Set v2 "email" username
  else v2.

Definition serviceLoginURL (session : Session) (v2 : Values) : string :=
  ServiceScheme session +:+ "://" +:+ ServiceHost session +:+ "/_ah/login?"
  +:+ Values_Encode v2.

Definition appLoginURL (session : Session) (v2 : Values) : string :=
  AppScheme session +:+ "://" +:+ AppHost session +:+ "/_ah/login?"
  +:+ Values_Encode v2.

(** The block [if !session.Local { ... }] of [Signin]: authenticate with the
    identity provider.  In local mode [values] stays the nil map. *)
Definition authenticate (session : Session) (username password : string)
    : Go (flow (gmap string string)) :=
  if negb (Local session) then
    let* (response, err) := http_Get (clientLoginURL username password) in
    match err with
    | Some _ => ret (Return err)
    | None =>
        let* response := deref response in
        let (contents, err) := ioutil_ReadAll (Body response) in
        match err with
        | Some _ => ret (Return err)
        | None =>
            let values := parseValues contents in
            match values !! "Error" with
            | Some errorMessage => ret (Return (Some (errorString errorMessage)))
            | None => ret (Continue values)
            end
        end
    end
  else ret (Continue ∅).

Definition redirectPolicy : option string := Some "don't follow redirects".

(** The second half of [Signin], from [v2 := url.Values{}] on: fetch the
    service and app login paths to get the necessary cookies, then save the
    cookies locally.  Both results of each [client.Get] are dropped: the
    response is assigned to [_], and [err] is overwritten before anything
    reads it. *)
Definition fetchCookies (session : Session) (client : Client)
    (username : string) (values : gmap string string) : Go (option error) :=
  let v2 := loginValues (Local session) username values in
  let* (jar, _, err) := Client_Get client (serviceLoginURL session v2) in
  let client := {| CheckRedirect := CheckRedirect client; Client_Jar := jar |} in
  let* app := deref (Session_App session) in
  let* (jar, err) :=
    (if (0 <? String.length (Application app))%nat then
       let* (jar, _, err) := Client_Get client (appLoginURL session v2) in
       ret (jar, err)
     else ret (jar, err)) in
  (* save the cookies locally *)
  let cookieTrays := [] in
  let* appURL := deref (AppURL session) in
  let cookieTrays :=
    cookieTrays ++
    [{| Path := AppScheme session +:+ "://" +:+ AppHost session;
        Cookies := Jar_Cookies jar appURL |}] in
  let* serviceURL := deref (ServiceURL session) in
  let cookieTrays :=
    cookieTrays ++
    [{| Path := ServiceScheme session +:+ "://" +:+ ServiceHost session;
        Cookies := Jar_Cookies jar serviceURL |}] in
  saveTrays session cookieTrays.

(** This signs us in so that we can use the remote_api. *)
Definition Signin (session : Session) : Go (option error) :=
  let* (username, password, err) := readCredentials in
  (* create the http client that we'll use to make signin connections *)
  let jar := cookiejar_New in
  let client := {| CheckRedirect := redirectPolicy; Client_Jar := jar |} in
  (* if we're connecting to a non-local app, first authenticate with Google *)
  let* next := authenticate session username password in
  match next with
  | Return err => ret err
  | Continue values => fetchCookies session client username values
  end.

Definition Signout (session : Session) : Go (option error) :=
  let* name := cookieFileName session in
  os_Remove name.

(** The value of [cookieTrays] when [Signin] saves it: the tray of the
    application endpoint, then the tray of the service endpoint, each with
    what the jar holds for that endpoint. *)
Definition traysOf (session : Session) (jar : Jar) (appURL serviceURL : URL)
    : list CookieTray :=
  [ {| Path := AppScheme session +:+ "://" +:+ AppHost session;
       Cookies := Jar_Cookies jar appURL |};
    {| Path := ServiceScheme session +:+ "://" +:+ ServiceHost session;
       Cookies := Jar_Cookies jar serviceURL |} ].

End Remote.

(** ** A reference platform

    One implementation of [Platform], small enough to run inside Rocq: URLs
    of the shape [scheme://host...], a jar that files cookies under the host
    they came from, a length-prefixed byte format for trays and a
    line-oriented reader for the descriptor.  The theorems below do not
    depend on it; it is what they are run on. *)
Module Sim.

Record Url : Type := { Scheme : string; Host : string }.

Fixpoint dropBytes (n : nat) (s : string) : string :=
  match n, s with
  | S n, String _ rest => dropBytes n rest
  | _, _ => s
  end.

(** Cut [s] at the first occurrence of [sep]. *)
Fixpoint cut (sep s : string) : option (string * string) :=
  if String.prefix sep s then Some ("", dropBytes (String.length sep) s)
  else match s with
       | EmptyString => None
       | String c rest =>
           match cut sep rest with
           | Some (before, after) => Some (String c before, after)
           | None => None
           end
       end.

Fixpoint untilSlash (s : string) : string :=
  match s with
  | EmptyString => EmptyString
  | String c rest =>
      if Ascii.eqb c "/" || Ascii.eqb c "?" then EmptyString
      else String c (untilSlash rest)
  end.

Definition parse (s : string) : result Url :=
  match cut "://" s with
  | Some (scheme, rest) =>
      if String.eqb scheme "" then Err (LibraryError "url" "missing protocol scheme")
      else Ok {| Scheme := scheme; Host := untilSlash rest |}
  | None => Err (LibraryError "url" "missing protocol scheme")
  end.

Definition CookieJar : Type := list (string * Cookie).

Definition setCookies (jar : CookieJar) (u : Url) (cs : list Cookie) : CookieJar :=
  jar ++ map (fun c => (Host u, c)) cs.

(** As [cookiejar] does, hand back only the name and the value. *)
Definition bare (c : Cookie) : Cookie :=
  {| Cookie_Name := Cookie_Name c; Cookie_Value := Cookie_Value c;
     Cookie_Path := ""; Cookie_Domain := ""; Cookie_MaxAge := 0;
     Cookie_Secure := false; Cookie_HttpOnly := false |}.

Definition cookies (jar : CookieJar) (u : Url) : list Cookie :=
  map (fun hc => bare (snd hc))
      (filter (fun hc => String.eqb (fst hc) (Host u) = true) jar).

(** *** The tray format: every number in unary, every string behind its
    length.  Writers take the bytes that follow as an argument. *)

Fixpoint putNat (n : nat) (k : string) : string :=
  match n with
  | O => String "." k
  | S n => String "1" (putNat n k)
  end.

Fixpoint putBytes (s : string) (k : string) : string :=
  match s with
  | EmptyString => k
  | String c rest => String c (putBytes rest k)
  end.

Definition putString (s : string) (k : string) : string :=
  putNat (String.length s) (putBytes s k).

Definition putBool (b : bool) (k : string) : string :=
  String (if b then "T" else "F")%char k.

Definition putZ (z : Z) (k : string) : string :=
  String (if (z <? 0)%Z then "-" else "+")%char (putNat (Z.abs_nat z) k).

Definition putCookie (c : Cookie) (k : string) : string :=
  putString (Cookie_Name c) (putString (Cookie_Value c)
    (putString (Cookie_Path c) (putString (Cookie_Domain c)
      (putZ (Cookie_MaxAge c) (putBool (Cookie_Secure c)
        (putBool (Cookie_HttpOnly c) k)))))).

Fixpoint putMany {A : Type} (put : A -> string -> string) (l : list A)
    (k : string) : string :=
  match l with
  | [] => k
  | x :: rest => put x (putMany put rest k)
  end.

Definition putList {A : Type} (put : A -> string -> string) (l : list A)
    (k : string) : string :=
  putNat (length l) (putMany put l k).

Definition putTray (t : CookieTray) (k : string) : string :=
  putList putCookie (Cookies t) (putString (Path t) k).

Definition encode (trays : list CookieTray) : string :=
  putList putTray trays "".

Fixpoint getNat (s : string) : option (nat * string) :=
  match s with
  | String c rest =>
      if Ascii.eqb c "." then Some (O, rest)
      else if Ascii.eqb c "1" then
        match getNat rest with
        | Some (n, rest') => Some (S n, rest')
        | None => None
        end
      else None
  | EmptyString => None
  end.

Fixpoint getBytes (n : nat) (s : string) : option (string * string) :=
  match n with
  | O => Some ("", s)
  | S n =>
      match s with
      | String c rest =>
          match getBytes n rest with
          | Some (bytes, rest') => Some (String c bytes, rest')
          | None => None
          end
      | EmptyString => None
      end
  end.

Definition getString (s : string) : option (string * string) :=
  match getNat s with
  | Some (n, rest) => getBytes n rest
  | None => None
  end.

Definition getBool (s : string) : option (bool * string) :=
  match s with
  | String c rest =>
      if Ascii.eqb c "T" then Some (true, rest)
      else if Ascii.eqb c "F" then Some (false, rest)
      else None
  | EmptyString => None
  end.

Definition getZ (s : string) : option (Z * string) :=
  match s with
  | String c rest =>
      match getNat rest with
      | Some (n, rest') =>
          if Ascii.eqb c "-" then Some ((- Z.of_nat n)%Z, rest')
          else if Ascii.eqb c "+" then Some (Z.of_nat n, rest')
          else None
      | None => None
      end
  | EmptyString => None
  end.

Definition getCookie (s : string) : option (Cookie * string) :=
  '(name, s) ← getString s;
  '(val, s) ← getString s;
  '(path, s) ← getString s;
  '(domain, s) ← getString s;
  '(maxAge, s) ← getZ s;
  '(secure, s) ← getBool s;
  '(httpOnly, s) ← getBool s;
  Some ({| Cookie_Name := name; Cookie_Value := val; Cookie_Path := path;
           Cookie_Domain := domain; Cookie_MaxAge := maxAge;
           Cookie_Secure := secure; Cookie_HttpOnly := httpOnly |}, s).

Fixpoint getMany {A : Type} (get : string -> option (A * string)) (n : nat)
    (s : string) : option (list A * string) :=
  match n with
  | O => Some ([], s)
  | S n =>
      match get s with
      | Some (x, rest) =>
          match getMany get n rest with
          | Some (xs, rest') => Some (x :: xs, rest')
          | None => None
          end
      | None => None
      end
  end.

Definition getList {A : Type} (get : string -> option (A * string))
    (s : string) : option (list A * string) :=
  match getNat s with
  | Some (n, rest) => getMany get n rest
  | None => None
  end.

Definition getTray (s : string) : option (CookieTray * string) :=
  '(cs, s) ← getList getCookie s;
  '(path, s) ← getString s;
  Some ({| Cookies := cs; Path := path |}, s).

Definition decode (data : string) : result (list CookieTray) :=
  match getList getTray data with
  | Some (trays, EmptyString) => Ok trays
  | Some (_, String _ _) => Err (LibraryError "gob" "extra data in buffer")
  | None => Err (LibraryError "gob" "unexpected EOF")
  end.

(** *** The descriptor: lines [key: value]; unknown keys are ignored, a
    line without a colon is a syntax error. *)

Definition trimLeft (s : string) : string :=
  match s with
  | String c rest => if Ascii.eqb c " " then rest else s
  | EmptyString => s
  end.

Definition emptyApp : App :=
  {| Application := ""; Version := ""; Runtime := ""; APIVersion := "";
     Handlers := [] |}.

Definition setField (app : App) (key val : string) : App :=
  if String.eqb key "application" then
    {| Application := val; Version := Version app; Runtime := Runtime app;
       APIVersion := APIVersion app; Handlers := Handlers app |}
  else if String.eqb key "version" then
    {| Application := Application app; Version := val; Runtime := Runtime app;
       APIVersion := APIVersion app; Handlers := Handlers app |}
  else if String.eqb key "runtime" then
    {| Application := Application app; Version := Version app; Runtime := val;
       APIVersion := APIVersion app; Handlers := Handlers app |}
  else if String.eqb key "api_version" then
    {| Application := Application app; Version := Version app;
       Runtime := Runtime app; APIVersion := val; Handlers := Handlers app |}
  else app.

Fixpoint readLines (lines : list string) (app : App) : result App :=
  match lines with
  | [] => Ok app
  | line :: rest =>
      if String.eqb line "" then readLines rest app
      else match cut ":" line with
           | Some (key, val) => readLines rest (setField app key (trimLeft val))
           | None => Err (LibraryError "yaml" "could not find expected ':'")
           end
  end.

Definition unmarshal (data : string) : result App :=
  readLines (strings_Split data newline) emptyApp.

Definition platform : Platform :=
  {| URL := Url; url_Parse := parse;
     Jar := CookieJar; cookiejar_New := []; Jar_SetCookies := setCookies;
     Jar_Cookies := cookies;
     gob_Encode := encode; gob_Decode := decode;
     yaml_Unmarshal := unmarshal |}.

End Sim.

(** ** Sample worlds and sessions *)
Module Examples.

Definition newlineString : string := String newline "".

Definition descriptor : string :=
  "application: myapp" +:+ newlineString +:+ "version: 1" +:+ newlineString.

Definition cookieFile : string := "/home/u/.cookies".

Definition acsid : Cookie :=
  {| Cookie_Name := "ACSID"; Cookie_Value := "AJKiYcE"; Cookie_Path := "/";
     Cookie_Domain := ""; Cookie_MaxAge := 60; Cookie_Secure := true;
     Cookie_HttpOnly := true |}.

(** An identity provider that accepts the credentials, and login handlers
    that redirect and set a cookie. *)
Definition tokens : string :=
  "SID=DQAAAGgA" +:+ newlineString +:+ "LSID=DQAAAGsA" +:+ newlineString
  +:+ "Auth=DQAAAGgA7Zg" +:+ newlineString.

Definition accepting (url : string) : HttpReply :=
  if String.prefix "https://www.google.com/accounts/ClientLogin?" url then
    Reply false [] (Ok tokens)
  else Reply true [acsid] (Ok "").

(** An identity provider that turns the credentials down. *)
Definition rejecting (url : string) : HttpReply :=
  if String.prefix "https://www.google.com/accounts/ClientLogin?" url then
    Reply false [] (Ok ("Error=BadAuthentication" +:+ newlineString))
  else Reply true [acsid] (Ok "").

(** A network that is down. *)
Definition unreachable (url : string) : HttpReply :=
  NetFail (LibraryError "net" "dial tcp: connection refused").

Definition keyboard : Terminal :=
  {| isTerminal := true; rawMode := false; input := ["alice"; "secret"] |}.

Definition piped : Terminal :=
  {| isTerminal := false; rawMode := false; input := ["alice"; "secret"] |}.

Definition world (net : string -> HttpReply) (fs : gmap string string) : World :=
  {| files := fs; denied := ∅; homeDir := Some "/home/u"; tty := keyboard;
     remote := net; requests := [] |}.

Definition withApp : gmap string string := {[ "/srv/app/app.yaml" := descriptor ]}.

Definition myapp : App :=
  {| Application := "myapp"; Version := "1"; Runtime := ""; APIVersion := "";
     Handlers := [] |}.

Definition noapp : App :=
  {| Application := ""; Version := "1"; Runtime := ""; APIVersion := "";
     Handlers := [] |}.

Definition url (scheme host : string) : @URL Sim.platform :=
  {| Sim.Scheme := scheme; Sim.Host := host |}.

Definition emptyClient : @Client Sim.platform :=
  @Build_Client Sim.platform None [].

Definition remoteSession (app : App) : @Session Sim.platform :=
  @Build_Session Sim.platform false ""
    "appengine.google.com" "https" (Some (url "https" "appengine.google.com"))
    (Application app +:+ ".appspot.com") "https"
    (Some (url "https" (Application app +:+ ".appspot.com")))
    (Some app) (Some emptyClient).

Definition localSession (app : option App) : @Session Sim.platform :=
  @Build_Session Sim.platform true ""
    "localhost:8000" "http" (Some (url "http" "localhost:8000"))
    "localhost:8080" "http" (Some (url "http" "localhost:8080"))
    app (Some emptyClient).

(** A terminal-less run: standard input is a pipe. *)
Definition pipedWorld : World :=
  {| files := withApp; denied := ∅; homeDir := Some "/home/u"; tty := piped;
     remote := accepting; requests := [] |}.

(** A world in which an earlier sign-in left a cookie file that is not a
    tray encoding. *)
Definition corruptCookies : gmap string string :=
  <[cookieFile := "not a gob stream"]> withApp.

(** What docopt makes of [tool deploy app] for a usage with the commands
    [deploy], [app] and [status], an option and a positional argument. *)
Definition deployCommand : Command :=
  {| M := {[ "deploy" := VBool true; "app" := VBool true;
             "status" := VBool false; "--verbose" := VBool false;
             "<name>" := VNil ]} |}.

Definition sampleTrays : list CookieTray :=
  [ {| Cookies := [acsid; Sim.bare acsid]; Path := "https://myapp.appspot.com" |};
    {| Cookies := []; Path := "https://appengine.google.com" |} ].

End Examples.

(** ** Notions used to state further properties *)

(** Does the byte [c] occur in [s]? *)
Fixpoint hasByte (c : ascii) (s : string) : bool :=
  match s with
  | EmptyString => false
  | String c' rest => Ascii.eqb c' c || hasByte c rest
  end.

(** The terms of a query put together again, with one space between each
    two. *)
Fixpoint joinSpaces (terms : list string) : string :=
  match terms with
  | [] => ""
  | [term] => term
  | term :: rest => term +:+ String " " (joinSpaces rest)
  end.

Section Notions.
Context `{Platform}.

(** Does [url.Parse] accept the string? *)
Definition parses (s : string) : bool :=
  match url_Parse s with
  | Ok _ => true
  | Err _ => false
  end.

(** The world after [client.Get(url)]: the request is on the wire exactly
    when the URL parses. *)
Definition afterGet (url : string) (w : World) : World :=
  match url_Parse url with
  | Ok _ => logRequest url w
  | Err _ => w
  end.

(** The world when the login requests of [Signin] are over. *)
Definition afterLogin (session : Session) (username : string)
    (values : gmap string string) (w : World) : World :=
  let v2 := loginValues (Local session) username values in
  let w1 := afterGet (serviceLoginURL session v2) w in
  match Session_App session with
  | Some app =>
      if (0 <? String.length (Application app))%nat
      then afterGet (appLoginURL session v2) w1
      else w1
  | None => w1
  end.

End Notions.

(** A platform whose URL parser, like Go's, turns down a host with a space
    in it; the rest is the reference platform. *)
Module Strict.

Definition parse (s : string) : result Sim.Url :=
  if hasByte " " s then
    Err (LibraryError "url" "invalid character in host name")
  else Sim.parse s.

Definition platform : Platform :=
  {| URL := Sim.Url; url_Parse := parse;
     Jar := Sim.CookieJar; cookiejar_New := [];
     Jar_SetCookies := Sim.setCookies; Jar_Cookies := Sim.cookies;
     gob_Encode := Sim.encode; gob_Decode := Sim.decode;
     yaml_Unmarshal := Sim.unmarshal |}.

End Strict.

(** More sample worlds. *)
Module MoreExamples.
Import Examples.

(** The user typed a name and then closed the input. *)
Definition nameOnly : Terminal :=
  {| isTerminal := true; rawMode := false; input := ["alice"] |}.

Definition withTty (t : Terminal) (net : string -> HttpReply)
    (fs : gmap string string) : World :=
  {| files := fs; denied := ∅; homeDir := Some "/home/u"; tty := t;
     remote := net; requests := [] |}.

(** The home directory is read-only. *)
Definition readOnlyHome (net : string -> HttpReply) : World :=
  {| files := withApp; denied := {[ cookieFile ]}; homeDir := Some "/home/u";
     tty := keyboard; remote := net; requests := [] |}.

(** The user database has no entry for the current user. *)
Definition homeless : World :=
  {| files := withApp; denied := ∅; homeDir := None; tty := keyboard;
     remote := accepting; requests := [] |}.

(** An identity provider whose answer breaks off while it is read. *)
Definition truncating (url : string) : HttpReply :=
  Reply false [] (Err (LibraryError "http" "unexpected EOF")).

(** A cookie file left by an earlier sign-in, with one tray whose origin no
    parser accepts. *)
Definition mixedTrays : list CookieTray :=
  [ {| Cookies := [acsid]; Path := "https://myapp.appspot.com" |};
    {| Cookies := [acsid]; Path := "no scheme here" |};
    {| Cookies := [Sim.bare acsid]; Path := "https://appengine.google.com" |} ].


(** A command for a usage with the two commands [a] and [b], both given,
    and a query that asks for both with a tab between them. *)
Definition abCommand : Command :=
  {| M := {[ "a" := VBool true; "b" := VBool true ]} |}.

Definition tabbed : string := "a" +:+ String "009"%char "b".

(** A descriptor whose application identifier has a space in it. *)
Definition spacedDescriptor : gmap string string :=
  {[ "/srv/app/app.yaml" := "application: my app" +:+ newlineString ]}.

End MoreExamples.

(** * Properties *)

(** ** Command.Is *)

Section CommandIs.
Implicit Types (m : gmap string value) (terms : list string).

Lemma assertBool_Returns (x : option value) (b : bool) :
  assertBool x = Returns b <-> x = Some (VBool b).
Proof.
  split.
  - destruct x as [[ | b' | | | ] | ]; simpl; intros Heq; try discriminate.
    inversion Heq; reflexivity.
  - intros ->. reflexivity.
Qed.

Lemma assertBool_Panics (x : option value) :
  (forall b, x <> Some (VBool b)) -> exists msg, assertBool x = Panics msg.
Proof.
  intros Hnot. destruct x as [[ | b | | | ] | ]; simpl; eauto.
  exfalso. apply (Hnot b). reflexivity.
Qed.

Lemma Is_loop_all_bool m terms (hasAll : bool) :
  (forall term, term ∈ terms -> exists b, m !! term = Some (VBool b)) ->
  exists r, Is_loop m terms hasAll = Returns r
    /\ (r = true <->
        hasAll = true /\ forall term, term ∈ terms -> m !! term = Some (VBool true)).
Proof.
  revert hasAll. induction terms as [ | term rest IH]; intros hasAll Hbool.
  - exists hasAll. split; [reflexivity | ]. split.
    + intros ->. split; [reflexivity | ]. intros term Hin.
      apply elem_of_nil in Hin. contradiction.
    + intros [-> _]. reflexivity.
  - destruct (Hbool term) as [b Hb]; [apply elem_of_cons; left; reflexivity | ].
    simpl. rewrite Hb. simpl.
    destruct (IH (if negb b then false else hasAll)) as (r & Hrun & Hiff).
    { intros t Ht. apply Hbool. apply elem_of_cons. right. exact Ht. }
    exists r. split; [exact Hrun | ]. rewrite Hiff. split.
    + intros [Hacc Hrest]. destruct b; simpl in Hacc; [ | discriminate].
      split; [exact Hacc | ]. intros t Ht.
      apply elem_of_cons in Ht as [-> | Ht]; [exact Hb | apply Hrest, Ht].
    + intros [-> Hall].
      assert (b = true) as ->.
      { specialize (Hall term). rewrite Hb in Hall.
        assert (Some (VBool b) = Some (VBool true)) as Heq
          by (apply Hall; apply elem_of_cons; left; reflexivity).
        inversion Heq; reflexivity. }
      split; [reflexivity | ]. intros t Ht. apply Hall.
      apply elem_of_cons. right. exact Ht.
Qed.

Lemma Is_loop_not_bool m terms (hasAll : bool) :
  (exists term, term ∈ terms /\ forall b, m !! term <> Some (VBool b)) ->
  exists msg, Is_loop m terms hasAll = Panics msg.
Proof.
  revert hasAll. induction terms as [ | term rest IH]; intros hasAll (bad & Hin & Hbad).
  - apply elem_of_nil in Hin. contradiction.
  - simpl. destruct (assertBool (m !! term)) as [b | msg] eqn:Hhead.
    + apply assertBool_Returns in Hhead.
      apply elem_of_cons in Hin as [-> | Hin].
      * exfalso. exact (Hbad b Hhead).
      * apply IH. exists bad. split; assumption.
    + exists msg. reflexivity.
Qed.

(** [Is c] in terms of the pieces [strings_Split] gives: with a boolean
    for each of them it returns their conjunction, with a piece that has
    none it panics. *)
Lemma Is_over_split (command : Command) (c : string) :
  ((forall term, term ∈ strings_Split c " "%char ->
      exists b, M command !! term = Some (VBool b)) ->
   exists r, Is command c = Returns r
     /\ (r = true <->
         forall term, term ∈ strings_Split c " "%char ->
           M command !! term = Some (VBool true)))
  /\ ((exists term, term ∈ strings_Split c " "%char
         /\ forall b, M command !! term <> Some (VBool b)) ->
      exists msg, Is command c = Panics msg).
Proof.
  split.
  - intros Hbool. unfold Is.
    destruct (Is_loop_all_bool (M command) _ true Hbool) as (r & Hrun & Hiff).
    exists r. split; [exact Hrun | ]. rewrite Hiff. split.
    + intros [_ Hall]. exact Hall.
    + intros Hall. split; [reflexivity | exact Hall].
  - intros Hbad. unfold Is. apply Is_loop_not_bool. exact Hbad.
Qed.

End CommandIs.

(** ** session.go *)

Section Properties.
Context `{Platform}.

(** *** Reading the credentials *)

(** [readCredentials] always returns, and never returns an error; all it
    changes in the world is the terminal. *)
Lemma readCredentials_returns (w : World) :
  exists username password t,
    readCredentials w = (Returns (username, password, None), setTty t w).
Proof.
  destruct w as [fs dn home [istty mode inp] net reqs].
  unfold readCredentials, bind, terminal_MakeRaw; simpl.
  destruct istty; simpl.
  - unfold Terminal_ReadLine at 1; simpl.
    destruct inp as [ | line1 inp]; simpl.
    + unfold ret, terminal_Restore, bind, deref, setTty; simpl.
      eexists _, _, _. reflexivity.
    + unfold Terminal_ReadPassword, Terminal_ReadLine, setTty; simpl.
      destruct inp as [ | line2 inp]; simpl;
        unfold ret, terminal_Restore, bind, deref, setTty; simpl;
        eexists _, _, _; reflexivity.
  - unfold ret, setTty; simpl.
    eexists _, _, {| isTerminal := false; rawMode := mode; input := inp |}.
    reflexivity.
Qed.

(** C9, as the code behaves.  When standard input is not a terminal,
    [terminal.MakeRaw] fails; [readCredentials] then returns empty
    credentials and a nil error, and leaves the world as it was. *)
Theorem readCredentials_MakeRaw_failure (w : World) :
  isTerminal (tty w) = false ->
  fst (terminal_MakeRaw w) = Returns (None, Some notATerminal)
  /\ readCredentials w = (Returns ("", "", None), w).
Proof.
  intros Hno. unfold readCredentials, bind, terminal_MakeRaw. rewrite Hno.
  split; reflexivity.
Qed.

(** *** Signing in *)

(** What [readCredentials] returned tells what the world is afterwards. *)
Lemma readCredentials_world (w w1 : World) (username password : string)
    (err : option error) :
  readCredentials w = (Returns (username, password, err), w1) ->
  err = None /\ exists t, w1 = setTty t w.
Proof.
  intros Hrun. destruct (readCredentials_returns w) as (u & p & t & Hret).
  rewrite Hret in Hrun. inversion Hrun; subst. split; [reflexivity | ].
  exists t. reflexivity.
Qed.

(** The identity provider reported an error: [authenticate] returns it. *)
Lemma authenticate_Error (session : Session) (w : World)
    (username password : string) (r : bool) (cs : list Cookie)
    (contents errorMessage : string) :
  Local session = false ->
  remote w (clientLoginURL username password) = Reply r cs (Ok contents) ->
  parseValues contents !! "Error" = Some errorMessage ->
  authenticate session username password w
  = (Returns (Return (Some (errorString errorMessage))),
     logRequest (clientLoginURL username password) w).
Proof.
  intros Hremote Hreply Herror.
  unfold authenticate. rewrite Hremote. cbn [negb].
  unfold bind, http_Get. rewrite Hreply. cbn [deref ret Body ioutil_ReadAll].
  rewrite Herror. reflexivity.
Qed.

(** C2.  In a sign-in against a remote application whose identity provider
    answers with a body that parses to a map holding [Error] with value
    [BadAuthentication], [Signin] returns an error whose message is exactly
    that value, and the files are what they were: the cookie file is not
    written, and the only request sent is the one to the identity
    provider. *)
Theorem Signin_BadAuthentication (session : Session) (w w1 : World)
    (username password : string) (err : option error)
    (r : bool) (cs : list Cookie) (contents : string) :
  Local session = false ->
  readCredentials w = (Returns (username, password, err), w1) ->
  remote w (clientLoginURL username password) = Reply r cs (Ok contents) ->
  parseValues contents !! "Error" = Some "BadAuthentication" ->
  exists e w',
    Signin session w = (Returns (Some e), w')
    /\ e = errorString "BadAuthentication"
    /\ Error e = "BadAuthentication"
    /\ files w' = files w
    /\ requests w' = requests w ++ [clientLoginURL username password].
Proof.
  intros Hremote Hcred Hreply Herror.
  destruct (readCredentials_world _ _ _ _ _ Hcred) as (-> & t & ->).
  exists (errorString "BadAuthentication"). eexists.
  unfold Signin, bind at 1. rewrite Hcred.
  unfold bind at 1.
  rewrite (authenticate_Error session (setTty t w) username password r cs
             contents "BadAuthentication" Hremote Hreply Herror).
  repeat split.
Qed.

(** *** The answer of the identity provider *)

(** A line that splits in two at the separator is its two pieces around
    one separator. *)
Lemma strings_Split_one (sep : ascii) (s piece : string) :
  strings_Split s sep = [piece] -> s = piece.
Proof.
  revert piece. induction s as [ | c rest IH]; intros piece; simpl.
  - intros Heq. inversion Heq; reflexivity.
  - destruct (Ascii.eqb c sep).
    + destruct rest; simpl; [discriminate | ].
      destruct (Ascii.eqb _ sep); [discriminate | ].
      destruct (strings_Split rest sep); discriminate.
    + destruct (strings_Split rest sep) as [ | p ps] eqn:Hrest.
      * destruct rest; simpl in Hrest; [discriminate | ].
        destruct (Ascii.eqb _ sep); [discriminate | ].
        destruct (strings_Split rest sep); discriminate.
      * intros Heq. inversion Heq; subst. f_equal. apply IH. reflexivity.
Qed.

Lemma strings_Split_two (sep : ascii) (s key val : string) :
  strings_Split s sep = [key; val] -> s = key +:+ String sep val.
Proof.
  revert key. induction s as [ | c rest IH]; intros key; simpl.
  - discriminate.
  - destruct (Ascii.eqb c sep) eqn:Hc.
    + intros Heq. inversion Heq as [[Hkey Hrest]].
      apply Ascii.eqb_eq in Hc as ->.
      apply strings_Split_one in Hrest as ->. reflexivity.
    + destruct (strings_Split rest sep) as [ | p ps] eqn:Hrest; [discriminate | ].
      intros Heq. inversion Heq; subst.
      rewrite (IH p eq_refl). reflexivity.
Qed.

Lemma parseValues_foldl (contents : string) :
  parseValues contents = foldl addLine ∅ (strings_Split contents newline).
Proof. reflexivity. Qed.

Lemma foldl_addLine_absent (key : string) (lines : list string)
    (values : gmap string string) :
  values !! key = None ->
  (forall val, (key +:+ String "="%char val) ∉ lines) ->
  foldl addLine values lines !! key = None.
Proof.
  revert values. induction lines as [ | line rest IH]; intros values Hnone Hlines.
  - exact Hnone.
  - simpl. apply IH.
    + unfold addLine.
      destruct (strings_Split line "="%char) as [ | k [ | v [ | ? ?]]] eqn:Hsplit;
        try exact Hnone.
      destruct (decide (k = key)) as [-> | Hne].
      * exfalso. apply (Hlines v). apply strings_Split_two in Hsplit as ->.
        apply elem_of_cons. left. reflexivity.
      * rewrite lookup_insert_ne; [exact Hnone | exact Hne].
    + intros val Hin. apply (Hlines val). apply elem_of_cons. right. exact Hin.
Qed.

(** A body without a line [Error=...] parses to a map without [Error]. *)
Lemma parseValues_no_Error (contents : string) :
  (forall val, ("Error=" +:+ val) ∉ strings_Split contents newline) ->
  parseValues contents !! "Error" = None.
Proof.
  intros Hlines. rewrite parseValues_foldl.
  apply foldl_addLine_absent; [apply lookup_empty | exact Hlines].
Qed.

(** The identity provider answered without an error: go on with the map. *)
Lemma authenticate_Continue (session : Session) (w : World)
    (username password : string) (r : bool) (cs : list Cookie)
    (contents : string) :
  Local session = false ->
  remote w (clientLoginURL username password) = Reply r cs (Ok contents) ->
  parseValues contents !! "Error" = None ->
  authenticate session username password w
  = (Returns (Continue (parseValues contents)),
     logRequest (clientLoginURL username password) w).
Proof.
  intros Hremote Hreply Herror.
  unfold authenticate. rewrite Hremote. cbn [negb].
  unfold bind, http_Get. rewrite Hreply. cbn [deref ret Body ioutil_ReadAll].
  rewrite Herror. reflexivity.
Qed.

Lemma authenticate_local (session : Session) (w : World)
    (username password : string) :
  Local session = true ->
  authenticate session username password w = (Returns (Continue ∅), w).
Proof. intros Hlocal. unfold authenticate. rewrite Hlocal. reflexivity. Qed.

(** *** The login requests and the cookie file *)

(** [client.Get] always returns, whatever the network does, and leaves the
    files, the permissions and the home directory alone. *)
Lemma Client_Get_returns (c : Client) (url : string) (w : World) :
  exists jar resp err w',
    Client_Get c url w = (Returns (jar, resp, err), w')
    /\ files w' = files w /\ denied w' = denied w /\ homeDir w' = homeDir w.
Proof.
  unfold Client_Get. destruct (url_Parse url) as [u | e].
  - destruct (remote w url) as [e | r cs body]; eexists _, _, _, _;
      (split; [reflexivity | repeat split]).
  - eexists _, _, _, _. split; [reflexivity | repeat split].
Qed.

Lemma cookieFileName_home (session : Session) (w : World) (home : string) :
  homeDir w = Some home ->
  cookieFileName session w = (Returns (home +:+ "/.cookies"), w).
Proof.
  intros Hhome. unfold cookieFileName, bind, user_Current. rewrite Hhome.
  reflexivity.
Qed.

(** With a known home directory and a cookie file the process may write,
    the save succeeds and the cookie file holds the encoded trays, whatever
    it held before. *)
Lemma saveTrays_writes (session : Session) (trays : list CookieTray)
    (w : World) (home : string) :
  homeDir w = Some home ->
  (home +:+ "/.cookies") ∉ denied w ->
  saveTrays session trays w
  = (Returns None,
     setFiles (<[home +:+ "/.cookies" := gob_Encode trays]> (files w)) w).
Proof.
  intros Hhome Hfree. unfold saveTrays, bind at 1.
  rewrite (cookieFileName_home session w home Hhome).
  unfold bind, os_Create. rewrite decide_False by exact Hfree.
  unfold Encoder_Encode, File_Write, setFiles; cbn [files denied homeDir tty remote requests].
  rewrite lookup_insert_eq, insert_insert_eq. reflexivity.
Qed.

(** When the cookie file cannot be created the save reports
    [os.ErrInvalid], the failure of the write on the nil file. *)
Lemma saveTrays_denied (session : Session) (trays : list CookieTray)
    (w : World) (home : string) :
  homeDir w = Some home ->
  (home +:+ "/.cookies") ∈ denied w ->
  saveTrays session trays w = (Returns (Some ErrInvalid), w).
Proof.
  intros Hhome Hdenied. unfold saveTrays, bind at 1.
  rewrite (cookieFileName_home session w home Hhome).
  unfold bind, os_Create. rewrite decide_True by exact Hdenied. reflexivity.
Qed.

(** Once the identity stage is over nothing stops [Signin]: whatever
    the two login requests come to, it saves two trays and returns the
    result of the save. *)
Lemma fetchCookies_saves (session : Session) (c : Client) (username : string)
    (values : gmap string string) (w : World)
    (app : App) (appURL serviceURL : URL) (home : string) :
  Session_App session = Some app ->
  AppURL session = Some appURL ->
  ServiceURL session = Some serviceURL ->
  homeDir w = Some home ->
  (home +:+ "/.cookies") ∉ denied w ->
  exists jar w',
    fetchCookies session c username values w = (Returns None, w')
    /\ files w'
       = <[home +:+ "/.cookies" := gob_Encode (traysOf session jar appURL serviceURL)]>
           (files w).
Proof.
  intros Happ HappURL HserviceURL Hhome Hfree.
  unfold fetchCookies.
  set (v2 := loginValues (Local session) username values).
  destruct (Client_Get_returns c (serviceLoginURL session v2) w)
    as (jar1 & resp1 & err1 & w1 & Hget1 & Hfiles1 & Hdenied1 & Hhome1).
  unfold bind at 1. rewrite Hget1.
  rewrite Happ. unfold bind at 1. cbn [deref ret].
  destruct (0 <? String.length (Application app))%nat.
  - destruct (Client_Get_returns
                {| CheckRedirect := CheckRedirect c; Client_Jar := jar1 |}
                (appLoginURL session v2) w1)
      as (jar2 & resp2 & err2 & w2 & Hget2 & Hfiles2 & Hdenied2 & Hhome2).
    unfold bind at 1. unfold bind at 1. rewrite Hget2. cbn [ret].
    rewrite HappURL, HserviceURL. unfold bind at 1. cbn [deref ret].
    unfold bind at 1. cbn [ret List.app].
    exists jar2. eexists. split.
    + apply (saveTrays_writes session _ w2 home); congruence.
    + cbn [files setFiles]. rewrite Hfiles2, Hfiles1. reflexivity.
  - unfold bind at 1. cbn [ret].
    rewrite HappURL, HserviceURL. unfold bind at 1. cbn [deref ret].
    unfold bind at 1. cbn [ret List.app].
    exists jar1. eexists. split.
    + apply (saveTrays_writes session _ w1 home); congruence.
    + cbn [files setFiles]. rewrite Hfiles1. reflexivity.
Qed.

(** A request the network fails is reported by [client.Get] with the
    network's error, and leaves the jar as it was. *)
Lemma Client_Get_NetFail (c : Client) (url : string) (w : World) (u : URL)
    (e : error) :
  url_Parse url = Ok u ->
  remote w url = NetFail e ->
  Client_Get c url w = (Returns (Client_Jar c, None, Some e), logRequest url w).
Proof.
  intros Hparse Hdown. unfold Client_Get. rewrite Hparse, Hdown. reflexivity.
Qed.

(** C1, as the code behaves.  In a sign-in against a remote application
    whose identity provider answers with a body that has a line
    [Auth=<token>] and no line [Error=...], and with a cookie file that can
    be created, [Signin] returns nil and the cookie file holds the encoding
    of exactly two trays, the application endpoint's and then the service
    endpoint's.  This does not depend on the application identifier: with
    an empty identifier the application tray is written all the same. *)
Theorem Signin_saves_two_trays (session : Session) (w w1 : World)
    (username password : string) (err : option error)
    (r : bool) (cs : list Cookie) (contents token : string)
    (app : App) (appURL serviceURL : URL) (home : string) :
  Local session = false ->
  Session_App session = Some app ->
  AppURL session = Some appURL ->
  ServiceURL session = Some serviceURL ->
  readCredentials w = (Returns (username, password, err), w1) ->
  remote w (clientLoginURL username password) = Reply r cs (Ok contents) ->
  ("Auth=" +:+ token) ∈ strings_Split contents newline ->
  (forall val, ("Error=" +:+ val) ∉ strings_Split contents newline) ->
  homeDir w = Some home ->
  (home +:+ "/.cookies") ∉ denied w ->
  exists jar w',
    Signin session w = (Returns None, w')
    /\ files w' !! (home +:+ "/.cookies")
       = Some (gob_Encode (traysOf session jar appURL serviceURL))
    /\ map Path (traysOf session jar appURL serviceURL)
       = [AppScheme session +:+ "://" +:+ AppHost session;
          ServiceScheme session +:+ "://" +:+ ServiceHost session]
    /\ length (traysOf session jar appURL serviceURL) = 2.
Proof.
  intros Hremote Happ HappURL HserviceURL Hcred Hreply _ Hnoerr Hhome Hfree.
  destruct (readCredentials_world _ _ _ _ _ Hcred) as (-> & t & ->).
  unfold Signin, bind at 1. rewrite Hcred.
  unfold bind at 1.
  rewrite (authenticate_Continue session (setTty t w) username password r cs
             contents Hremote Hreply (parseValues_no_Error contents Hnoerr)).
  destruct (fetchCookies_saves session
              {| CheckRedirect := redirectPolicy; Client_Jar := cookiejar_New |}
              username (parseValues contents)
              (logRequest (clientLoginURL username password) (setTty t w))
              app appURL serviceURL home Happ HappURL HserviceURL Hhome Hfree)
    as (jar & w' & Hrun & Hfiles).
  exists jar, w'. split; [exact Hrun | ]. split.
  - rewrite Hfiles. apply lookup_insert_eq.
  - split; reflexivity.
Qed.

(** C6, as the code behaves.  In a local sign-in whose request to the
    service endpoint's [/_ah/login] fails at the network level with [e],
    [client.Get] does report [e], and [Signin] nevertheless goes on to
    write the cookie file and returns nil. *)
Theorem Signin_drops_login_errors (session : Session) (w w1 : World)
    (username password : string) (err : option error)
    (app : App) (appURL serviceURL u : URL) (home : string) (e : error) :
  Local session = true ->
  Session_App session = Some app ->
  AppURL session = Some appURL ->
  ServiceURL session = Some serviceURL ->
  readCredentials w = (Returns (username, password, err), w1) ->
  url_Parse (serviceLoginURL session (loginValues true username ∅)) = Ok u ->
  remote w (serviceLoginURL session (loginValues true username ∅)) = NetFail e ->
  homeDir w = Some home ->
  (home +:+ "/.cookies") ∉ denied w ->
  fst (Client_Get {| CheckRedirect := redirectPolicy; Client_Jar := cookiejar_New |}
         (serviceLoginURL session (loginValues true username ∅)) w1)
  = Returns (cookiejar_New, None, Some e)
  /\ exists w',
       Signin session w = (Returns None, w')
       /\ is_Some (files w' !! (home +:+ "/.cookies")).
Proof.
  intros Hlocal Happ HappURL HserviceURL Hcred Hparse Hdown Hhome Hfree.
  destruct (readCredentials_world _ _ _ _ _ Hcred) as (-> & t & ->).
  split.
  - rewrite (Client_Get_NetFail _ _ (setTty t w) u e Hparse Hdown). reflexivity.
  - unfold Signin, bind at 1. rewrite Hcred.
    unfold bind at 1.
    rewrite (authenticate_local session (setTty t w) username password Hlocal).
    destruct (fetchCookies_saves session
                {| CheckRedirect := redirectPolicy; Client_Jar := cookiejar_New |}
                username ∅ (setTty t w)
                app appURL serviceURL home Happ HappURL HserviceURL Hhome Hfree)
      as (jar & w' & Hrun & Hfiles).
    exists w'. split; [exact Hrun | ].
    rewrite Hfiles, lookup_insert_eq. eexists. reflexivity.
Qed.

(** *** Saving and restoring the cookies *)

(** A save that succeeded tells where the home directory is, that the
    cookie file could be written, and what the world is afterwards. *)
Lemma saveTrays_success (session : Session) (trays : list CookieTray)
    (w w1 : World) :
  saveTrays session trays w = (Returns None, w1) ->
  exists home,
    homeDir w = Some home
    /\ ((home +:+ "/.cookies") ∉ denied w)
    /\ w1 = setFiles (<[home +:+ "/.cookies" := gob_Encode trays]> (files w)) w.
Proof.
  intros Hsave. destruct (homeDir w) as [home | ] eqn:Hhome.
  - exists home. split; [reflexivity | ].
    destruct (decide ((home +:+ "/.cookies") ∈ denied w)) as [Hdenied | Hfree].
    + rewrite (saveTrays_denied session trays w home Hhome Hdenied) in Hsave.
      discriminate.
    + rewrite (saveTrays_writes session trays w home Hhome Hfree) in Hsave.
      inversion Hsave. split; [exact Hfree | reflexivity].
  - unfold saveTrays, bind at 1 in Hsave.
    unfold cookieFileName, bind, user_Current in Hsave. rewrite Hhome in Hsave.
    discriminate.
Qed.

(** Reading a cookie file that is there and may be opened is decoding its
    contents. *)
Lemma loadTrays_present (session : Session) (w : World) (home data : string) :
  homeDir w = Some home ->
  (home +:+ "/.cookies") ∉ denied w ->
  files w !! (home +:+ "/.cookies") = Some data ->
  loadTrays session w
  = (Returns (match gob_Decode data with
              | Ok trays => (trays, None)
              | Err e => ([], Some e)
              end), w).
Proof.
  intros Hhome Hfree Hdata. unfold loadTrays, bind at 1.
  rewrite (cookieFileName_home session w home Hhome).
  unfold bind at 1. unfold os_Open. rewrite decide_False by exact Hfree.
  rewrite Hdata. unfold Decoder_Decode, bind, File_contents. cbv beta.
  rewrite Hdata. destruct (gob_Decode data); reflexivity.
Qed.

(** Reading a cookie file that is absent or may not be opened gives no tray
    and the error of [os.Open]. *)
Lemma loadTrays_absent (session : Session) (w : World) (home : string) :
  homeDir w = Some home ->
  ((home +:+ "/.cookies") ∈ denied w) \/ (files w !! (home +:+ "/.cookies") = None) ->
  exists readerr, loadTrays session w = (Returns ([], Some readerr), w).
Proof.
  intros Hhome Hcase. unfold loadTrays, bind at 1.
  rewrite (cookieFileName_home session w home Hhome).
  unfold bind at 1. unfold os_Open.
  destruct (decide ((home +:+ "/.cookies") ∈ denied w)) as [Hdenied | Hfree].
  - eexists. reflexivity.
  - destruct Hcase as [Hdenied | Hnone]; [contradiction | ].
    rewrite Hnone. eexists. reflexivity.
Qed.

(** C3.  Take any sequence of trays (in particular any non-empty one) that
    the gob codec itself carries through an encode and a decode.  If the
    save that ends [Signin] succeeds on it, the cookie read of [NewSession]
    that follows, in whatever session, returns without error a sequence
    with the same origin strings and, tray by tray, the same cookies (name,
    value and domain) in the same order; it is in fact the sequence that
    was saved. *)
Theorem save_load_roundtrip (session session' : Session)
    (trays : list CookieTray) (w w1 : World) :
  gob_Decode (gob_Encode trays) = Ok trays ->
  saveTrays session trays w = (Returns None, w1) ->
  exists loaded,
    loadTrays session' w1 = (Returns (loaded, None), w1)
    /\ map Path loaded = map Path trays
    /\ map (fun tray => map cookieKey (Cookies tray)) loaded
       = map (fun tray => map cookieKey (Cookies tray)) trays
    /\ loaded = trays.
Proof.
  intros Hcodec Hsave.
  destruct (saveTrays_success session trays w w1 Hsave)
    as (home & Hhome & Hfree & ->).
  exists trays. split; [ | repeat split].
  rewrite (loadTrays_present session' _ home (gob_Encode trays)).
  - rewrite Hcodec. reflexivity.
  - exact Hhome.
  - exact Hfree.
  - cbn [files setFiles]. apply lookup_insert_eq.
Qed.

(** *** Constructing a session *)

(** [readApp] always returns and changes nothing. *)
Lemma readApp_returns (path : string) (w : World) :
  exists app err, readApp path w = (Returns (app, err), w).
Proof.
  unfold readApp, bind, ioutil_ReadFile.
  destruct (decide ((path +:+ "/app.yaml") ∈ denied w)).
  - eexists _, _. reflexivity.
  - destruct (files w !! (path +:+ "/app.yaml")) as [bytes | ].
    + cbn [ret]. destruct (yaml_Unmarshal bytes); eexists _, _; reflexivity.
    + eexists _, _. reflexivity.
Qed.

(** The cookie read always returns when the home directory is known. *)
Lemma loadTrays_returns (session : Session) (w : World) (home : string) :
  homeDir w = Some home ->
  exists trays readerr, loadTrays session w = (Returns (trays, readerr), w).
Proof.
  intros Hhome.
  destruct (decide ((home +:+ "/.cookies") ∈ denied w)) as [Hdenied | Hfree].
  - destruct (loadTrays_absent session w home Hhome (or_introl Hdenied)) as [e He].
    eexists _, _. exact He.
  - destruct (files w !! (home +:+ "/.cookies")) as [data | ] eqn:Hdata.
    + rewrite (loadTrays_present session w home data Hhome Hfree Hdata).
      destruct (gob_Decode data); eexists _, _; reflexivity.
    + destruct (loadTrays_absent session w home Hhome (or_intror Hdata)) as [e He].
      eexists _, _. exact He.
Qed.

Lemma loadTrays_any_session (session session' : Session) (w : World) :
  loadTrays session w = loadTrays session' w.
Proof. reflexivity. Qed.

(** What [NewSession] returns once the endpoints are known and parse: the
    descriptor's error, if any, is not part of it. *)
Lemma NewSession_returns (path : string) (local : bool) (w : World)
    (app : option App) (err : option error)
    (serviceHost serviceScheme appHost appScheme : string)
    (serviceURL appURL : URL) (session0 : Session)
    (trays : list CookieTray) (readerr : option error) :
  readApp path w = (Returns (app, err), w) ->
  endpoints local app w
  = (Returns (serviceHost, serviceScheme, appHost, appScheme), w) ->
  url_Parse (serviceScheme +:+ "://" +:+ serviceHost) = Ok serviceURL ->
  url_Parse (appScheme +:+ "://" +:+ appHost) = Ok appURL ->
  loadTrays session0 w = (Returns (trays, readerr), w) ->
  NewSession path local w
  = (Returns
       (Some {| Local := local; Source := ""; ServiceHost := serviceHost;
                ServiceScheme := serviceScheme; ServiceURL := Some serviceURL;
                AppHost := appHost; AppScheme := appScheme;
                AppURL := Some appURL; Session_App := app;
                client :=
                  Some {| CheckRedirect := None;
                          Client_Jar :=
                            match readerr with
                            | None => installTrays cookiejar_New trays
                            | Some _ => cookiejar_New
                            end |} |}, None), w).
Proof.
  intros Hread Hends HparseS HparseA Hload.
  unfold NewSession, bind at 1. rewrite Hread.
  unfold bind at 1. rewrite Hends.
  rewrite HparseS, HparseA.
  unfold bind. rewrite (loadTrays_any_session _ session0), Hload.
  reflexivity.
Qed.


(** C4.  With a descriptor whose application identifier is [myapp]:
    a local session has service endpoint [http://localhost:8000] and
    application endpoint [http://localhost:8080]; a remote session has
    service endpoint [https://appengine.google.com] and application
    endpoint [https://myapp.appspot.com].  Each endpoint is given by its
    scheme and host fields and by the URL field, which is what [url.Parse]
    makes of the endpoint string. *)
Theorem NewSession_endpoints (path : string) (w : World) (app : App)
    (err : option error) (home : string)
    (localService localApp remoteService remoteApp : URL) :
  readApp path w = (Returns (Some app, err), w) ->
  Application app = "myapp" ->
  homeDir w = Some home ->
  url_Parse "http://localhost:8000" = Ok localService ->
  url_Parse "http://localhost:8080" = Ok localApp ->
  url_Parse "https://appengine.google.com" = Ok remoteService ->
  url_Parse "https://myapp.appspot.com" = Ok remoteApp ->
  (exists session,
     NewSession path true w = (Returns (Some session, None), w)
     /\ ServiceScheme session +:+ "://" +:+ ServiceHost session
        = "http://localhost:8000"
     /\ ServiceURL session = Some localService
     /\ AppScheme session +:+ "://" +:+ AppHost session
        = "http://localhost:8080"
     /\ AppURL session = Some localApp)
  /\ (exists session,
        NewSession path false w = (Returns (Some session, None), w)
        /\ ServiceScheme session +:+ "://" +:+ ServiceHost session
           = "https://appengine.google.com"
        /\ ServiceURL session = Some remoteService
        /\ AppScheme session +:+ "://" +:+ AppHost session
           = "https://myapp.appspot.com"
        /\ AppURL session = Some remoteApp).
Proof.
  intros Hread Hid Hhome HlocalS HlocalA HremoteS HremoteA.
  set (session0 := {| Local := true; Source := ""; ServiceHost := "";
                      ServiceScheme := ""; ServiceURL := None; AppHost := "";
                      AppScheme := ""; AppURL := None; Session_App := None;
                      client := None |}).
  destruct (loadTrays_returns session0 w home Hhome) as (trays & readerr & Hload).
  split.
  - eexists. split.
    + apply (NewSession_returns path true w (Some app) err
               "localhost:8000" "http" "localhost:8080" "http"
               localService localApp session0 trays readerr
               Hread eq_refl HlocalS HlocalA Hload).
    + repeat split.
  - assert (endpoints false (Some app) w
            = (Returns ("appengine.google.com", "https", "myapp.appspot.com",
                        "https"), w)) as Hends.
    { unfold endpoints, bind; cbn [deref ret]. rewrite Hid. reflexivity. }
    eexists. split.
    + apply (NewSession_returns path false w (Some app) err
               "appengine.google.com" "https" "myapp.appspot.com" "https"
               remoteService remoteApp session0 trays readerr
               Hread Hends HremoteS HremoteA Hload).
    + repeat split.
Qed.

(** C8, as the code behaves.  When the descriptor cannot be read or
    parsed, [readApp] returns its error, and [NewSession] does not hand it
    on: in local mode it returns a session without an application and a nil
    error, in remote mode it panics on [app.Application]. *)
Theorem NewSession_drops_descriptor_error (path : string) (w : World)
    (e : error) (home : string) (localService localApp : URL) :
  readApp path w = (Returns (None, Some e), w) ->
  homeDir w = Some home ->
  url_Parse "http://localhost:8000" = Ok localService ->
  url_Parse "http://localhost:8080" = Ok localApp ->
  (exists session,
     NewSession path true w = (Returns (Some session, None), w)
     /\ Session_App session = None)
  /\ NewSession path false w = (Panics nilDereference, w).
Proof.
  intros Hread Hhome HlocalS HlocalA. split.
  - set (session0 := {| Local := true; Source := ""; ServiceHost := "";
                        ServiceScheme := ""; ServiceURL := None; AppHost := "";
                        AppScheme := ""; AppURL := None; Session_App := None;
                        client := None |}).
    destruct (loadTrays_returns session0 w home Hhome)
      as (trays & readerr & Hload).
    eexists. split.
    + apply (NewSession_returns path true w None (Some e)
               "localhost:8000" "http" "localhost:8080" "http"
               localService localApp session0 trays readerr
               Hread eq_refl HlocalS HlocalA Hload).
    + reflexivity.
  - unfold NewSession, bind at 1. rewrite Hread. reflexivity.
Qed.

(** *** Signing out *)

(** C7, as the code behaves.  With a known home directory and a cookie
    file the process may remove: [Signout] returns, and the cookie file does
    not exist afterwards.  When the file existed it is deleted and the
    result is nil; when it was already absent the result is the error of
    [os.Remove], no such file or directory, and nothing changes. *)
Theorem Signout_removes (session : Session) (w : World) (home : string) :
  homeDir w = Some home ->
  (home +:+ "/.cookies") ∉ denied w ->
  exists err w',
    Signout session w = (Returns err, w')
    /\ files w' !! (home +:+ "/.cookies") = None
    /\ (is_Some (files w !! (home +:+ "/.cookies")) -> err = None)
    /\ (files w !! (home +:+ "/.cookies") = None ->
        err = Some (notExist "remove" (home +:+ "/.cookies")) /\ w' = w).
Proof.
  intros Hhome Hfree. unfold Signout, bind.
  rewrite (cookieFileName_home session w home Hhome).
  unfold os_Remove. rewrite decide_False by exact Hfree.
  destruct (files w !! (home +:+ "/.cookies")) as [data | ] eqn:Hdata.
  - eexists _, _. split; [reflexivity | ]. split.
    + cbn [files setFiles]. apply lookup_delete_eq.
    + split; [reflexivity | discriminate].
  - eexists _, _. split; [reflexivity | ]. split; [exact Hdata | ]. split.
    + intros [x Hx]. discriminate.
    + intros _. split; reflexivity.
Qed.

End Properties.

(** ** The reference platform's tray format is read back as written *)

Module SimFacts.
Import Sim.

Lemma getNat_putNat (n : nat) (k : string) : getNat (putNat n k) = Some (n, k).
Proof.
  induction n as [ | n IH]; simpl; [reflexivity | ]. rewrite IH. reflexivity.
Qed.

Lemma getBytes_putBytes (s k : string) :
  getBytes (String.length s) (putBytes s k) = Some (s, k).
Proof.
  induction s as [ | c rest IH]; simpl; [reflexivity | ]. rewrite IH. reflexivity.
Qed.

Lemma getString_putString (s k : string) :
  getString (putString s k) = Some (s, k).
Proof.
  unfold getString, putString. rewrite getNat_putNat. apply getBytes_putBytes.
Qed.

Lemma getBool_putBool (b : bool) (k : string) : getBool (putBool b k) = Some (b, k).
Proof. destruct b; reflexivity. Qed.

Lemma getZ_putZ (z : Z) (k : string) : getZ (putZ z k) = Some (z, k).
Proof.
  unfold getZ, putZ. rewrite getNat_putNat.
  destruct (z <? 0)%Z eqn:Hsign; simpl; do 2 f_equal.
  - apply Z.ltb_lt in Hsign. lia.
  - apply Z.ltb_ge in Hsign. lia.
Qed.

Lemma getCookie_putCookie (c : Cookie) (k : string) :
  getCookie (putCookie c k) = Some (c, k).
Proof.
  destruct c. unfold getCookie, putCookie, mbind, option_bind.
  cbn [Cookie_Name Cookie_Value Cookie_Path Cookie_Domain Cookie_MaxAge
       Cookie_Secure Cookie_HttpOnly].
  repeat (rewrite getString_putString; cbv beta iota).
  rewrite getZ_putZ; cbv beta iota.
  repeat (rewrite getBool_putBool; cbv beta iota).
  reflexivity.
Qed.

Lemma getMany_putMany {A : Type} (put : A -> string -> string)
    (get : string -> option (A * string)) (l : list A) (k : string) :
  (forall x k', get (put x k') = Some (x, k')) ->
  getMany get (length l) (putMany put l k) = Some (l, k).
Proof.
  intros Hone. induction l as [ | x rest IH]; simpl; [reflexivity | ].
  rewrite Hone, IH. reflexivity.
Qed.

Lemma getList_putList {A : Type} (put : A -> string -> string)
    (get : string -> option (A * string)) (l : list A) (k : string) :
  (forall x k', get (put x k') = Some (x, k')) ->
  getList get (putList put l k) = Some (l, k).
Proof.
  intros Hone. unfold getList, putList. rewrite getNat_putNat.
  apply getMany_putMany. exact Hone.
Qed.

Lemma getTray_putTray (t : CookieTray) (k : string) :
  getTray (putTray t k) = Some (t, k).
Proof.
  destruct t. unfold getTray, putTray, mbind, option_bind. cbn [Cookies Path].
  rewrite (getList_putList putCookie getCookie) by apply getCookie_putCookie.
  cbv beta iota. rewrite getString_putString. reflexivity.
Qed.

(** Decoding what was encoded gives the trays back. *)
Lemma decode_encode (trays : list CookieTray) :
  decode (encode trays) = Ok trays.
Proof.
  unfold decode, encode.
  rewrite (getList_putList putTray getTray) by apply getTray_putTray.
  reflexivity.
Qed.

Lemma encode_inj (trays trays' : list CookieTray) :
  encode trays = encode trays' -> trays = trays'.
Proof.
  intros Heq. apply (f_equal decode) in Heq. rewrite !decode_encode in Heq.
  inversion Heq; reflexivity.
Qed.

End SimFacts.

(** ** The properties on the sample runs *)

Import Examples.

Lemma readCredentials_MakeRaw_failure_witness :
  fst (terminal_MakeRaw pipedWorld) = Returns (None, Some notATerminal)
  /\ readCredentials pipedWorld = (Returns ("", "", None), pipedWorld).
Proof.
  apply (readCredentials_MakeRaw_failure pipedWorld). reflexivity.
Defined.

Lemma Signin_BadAuthentication_witness :
  exists e w',
    @Signin Sim.platform (remoteSession myapp) (world rejecting withApp)
    = (Returns (Some e), w')
    /\ e = errorString "BadAuthentication"
    /\ Error e = "BadAuthentication"
    /\ files w' = files (world rejecting withApp)
    /\ requests w'
       = requests (world rejecting withApp) ++ [clientLoginURL "alice" "secret"].
Proof.
  eapply (@Signin_BadAuthentication Sim.platform (remoteSession myapp)
            (world rejecting withApp) _ "alice" "secret" None false []).
  - reflexivity.
  - reflexivity.
  - reflexivity.
  - vm_compute. reflexivity.
Defined.

Lemma Signin_saves_two_trays_witness :
  exists jar w',
    @Signin Sim.platform (remoteSession myapp) (world accepting withApp)
    = (Returns None, w')
    /\ files w' !! ("/home/u" +:+ "/.cookies")
       = Some (Sim.encode
                 (traysOf (remoteSession myapp) jar
                    (url "https" "myapp.appspot.com")
                    (url "https" "appengine.google.com")))
    /\ map Path (traysOf (remoteSession myapp) jar
                   (url "https" "myapp.appspot.com")
                   (url "https" "appengine.google.com"))
       = ["https" +:+ "://" +:+ "myapp.appspot.com";
          "https" +:+ "://" +:+ "appengine.google.com"]
    /\ length (traysOf (remoteSession myapp) jar
                 (url "https" "myapp.appspot.com")
                 (url "https" "appengine.google.com")) = 2.
Proof.
  eapply (@Signin_saves_two_trays Sim.platform (remoteSession myapp)
            (world accepting withApp) _ "alice" "secret" None false [] _
            "DQAAAGgA7Zg" myapp _ _ "/home/u").
  - reflexivity.
  - reflexivity.
  - reflexivity.
  - reflexivity.
  - reflexivity.
  - reflexivity.
  - apply list_elem_of_In. vm_compute. tauto.
  - intros val Hin. apply list_elem_of_In in Hin. vm_compute in Hin.
    intuition discriminate.
  - reflexivity.
  - apply not_elem_of_empty.
Defined.

(** C1, where the claim fails.  A sign-in for a descriptor with an empty
    application identifier, against an identity provider that answers with
    an [Auth] line: the claim expects a cookie file with exactly one tray;
    the file written holds two. *)
Lemma Signin_one_tray_counterexample :
  Application noapp = ""
  /\ remote (world accepting withApp) (clientLoginURL "alice" "secret")
     = Reply false [] (Ok tokens)
  /\ "Auth=DQAAAGgA7Zg" ∈ strings_Split tokens newline
  /\ parseValues tokens !! "Error" = None
  /\ ~ (exists w' trays,
          @Signin Sim.platform (remoteSession noapp) (world accepting withApp)
          = (Returns None, w')
          /\ files w' !! cookieFile = Some (Sim.encode trays)
          /\ length trays = 1).
Proof.
  split; [reflexivity | ]. split; [reflexivity | ].
  split; [apply list_elem_of_In; vm_compute; tauto | ].
  split; [vm_compute; reflexivity | ].
  intros (w' & trays & Hrun & Hfile & Hlen).
  assert (files (snd (@Signin Sim.platform (remoteSession noapp)
                        (world accepting withApp))) !! cookieFile
          = Some (Sim.encode
                    [ {| Cookies := []; Path := "https://.appspot.com" |};
                      {| Cookies := [Sim.bare acsid];
                         Path := "https://appengine.google.com" |} ]))
    as Hwritten by (vm_compute; reflexivity).
  rewrite Hrun in Hwritten. cbn [snd] in Hwritten. rewrite Hfile in Hwritten.
  inversion Hwritten as [Hsame]. apply SimFacts.encode_inj in Hsame.
  rewrite Hsame in Hlen. discriminate.
Qed.

Lemma Signin_drops_login_errors_witness :
  fst (@Client_Get Sim.platform
         (@Build_Client Sim.platform redirectPolicy [])
         (serviceLoginURL (localSession (Some myapp))
            (loginValues true "alice" ∅))
         (snd (readCredentials (world unreachable withApp))))
  = Returns ([], None,
             Some (LibraryError "net" "dial tcp: connection refused"))
  /\ exists w',
       @Signin Sim.platform (localSession (Some myapp))
         (world unreachable withApp) = (Returns None, w')
       /\ is_Some (files w' !! ("/home/u" +:+ "/.cookies")).
Proof.
  eapply (@Signin_drops_login_errors Sim.platform (localSession (Some myapp))
            (world unreachable withApp) _ "alice" "secret" None myapp
            (url "http" "localhost:8080") (url "http" "localhost:8000")
            (url "http" "localhost:8000") "/home/u").
  - reflexivity.
  - reflexivity.
  - reflexivity.
  - reflexivity.
  - reflexivity.
  - vm_compute. reflexivity.
  - reflexivity.
  - reflexivity.
  - apply not_elem_of_empty.
Defined.

Lemma save_load_roundtrip_witness :
  exists loaded,
    @loadTrays Sim.platform (localSession None)
      (snd (@saveTrays Sim.platform (remoteSession myapp) sampleTrays
              (world accepting withApp)))
    = (Returns (loaded, None),
       snd (@saveTrays Sim.platform (remoteSession myapp) sampleTrays
              (world accepting withApp)))
    /\ map Path loaded = map Path sampleTrays
    /\ map (fun tray => map cookieKey (Cookies tray)) loaded
       = map (fun tray => map cookieKey (Cookies tray)) sampleTrays
    /\ loaded = sampleTrays.
Proof.
  apply (@save_load_roundtrip Sim.platform (remoteSession myapp)
           (localSession None) sampleTrays (world accepting withApp)).
  - apply SimFacts.decode_encode.
  - reflexivity.
Defined.


Lemma NewSession_endpoints_witness :
  (exists session,
     @NewSession Sim.platform "/srv/app" true (world accepting withApp)
     = (Returns (Some session, None), world accepting withApp)
     /\ ServiceScheme session +:+ "://" +:+ ServiceHost session
        = "http://localhost:8000"
     /\ ServiceURL session = Some (url "http" "localhost:8000")
     /\ AppScheme session +:+ "://" +:+ AppHost session
        = "http://localhost:8080"
     /\ AppURL session = Some (url "http" "localhost:8080"))
  /\ (exists session,
        @NewSession Sim.platform "/srv/app" false (world accepting withApp)
        = (Returns (Some session, None), world accepting withApp)
        /\ ServiceScheme session +:+ "://" +:+ ServiceHost session
           = "https://appengine.google.com"
        /\ ServiceURL session = Some (url "https" "appengine.google.com")
        /\ AppScheme session +:+ "://" +:+ AppHost session
           = "https://myapp.appspot.com"
        /\ AppURL session = Some (url "https" "myapp.appspot.com")).
Proof.
  apply (@NewSession_endpoints Sim.platform "/srv/app"
           (world accepting withApp) myapp None "/home/u").
  - vm_compute. reflexivity.
  - reflexivity.
  - reflexivity.
  - reflexivity.
  - reflexivity.
  - reflexivity.
  - reflexivity.
Defined.

Lemma NewSession_drops_descriptor_error_witness :
  (exists session,
     @NewSession Sim.platform "/srv/none" true (world accepting withApp)
     = (Returns (Some session, None), world accepting withApp)
     /\ Session_App session = None)
  /\ @NewSession Sim.platform "/srv/none" false (world accepting withApp)
     = (Panics nilDereference, world accepting withApp).
Proof.
  apply (@NewSession_drops_descriptor_error Sim.platform "/srv/none"
           (world accepting withApp)
           (notExist "open" "/srv/none/app.yaml") "/home/u"
           (url "http" "localhost:8000") (url "http" "localhost:8080")).
  - vm_compute. reflexivity.
  - reflexivity.
  - reflexivity.
  - reflexivity.
Defined.

Lemma Signout_removes_witness :
  exists err w',
    @Signout Sim.platform (remoteSession myapp) (world accepting corruptCookies)
    = (Returns err, w')
    /\ files w' !! ("/home/u" +:+ "/.cookies") = None
    /\ (is_Some (files (world accepting corruptCookies)
                   !! ("/home/u" +:+ "/.cookies")) -> err = None)
    /\ (files (world accepting corruptCookies) !! ("/home/u" +:+ "/.cookies")
        = None ->
        err = Some (notExist "remove" ("/home/u" +:+ "/.cookies"))
        /\ w' = world accepting corruptCookies).
Proof.
  apply (@Signout_removes Sim.platform (remoteSession myapp)
           (world accepting corruptCookies) "/home/u").
  - reflexivity.
  - apply not_elem_of_empty.
Defined.

(** C7, where the claim fails.  There is no cookie file; the claim expects
    [Signout] to return no error, and it returns the error of
    [os.Remove]. *)
Lemma Signout_absent_counterexample :
  files (world accepting withApp) !! cookieFile = None
  /\ @Signout Sim.platform (remoteSession myapp) (world accepting withApp)
     = (Returns (Some (notExist "remove" cookieFile)), world accepting withApp)
  /\ ~ (exists w',
          @Signout Sim.platform (remoteSession myapp) (world accepting withApp)
          = (Returns None, w')).
Proof.
  split; [reflexivity | ]. split; [reflexivity | ].
  intros [w' Hrun]. apply (f_equal fst) in Hrun. vm_compute in Hrun.
  discriminate.
Qed.

(** * Further properties *)

(** ** Splitting *)

Section Splitting.
Variable sep : ascii.

Lemma strings_Split_nonempty (s : string) :
  exists piece pieces, strings_Split s sep = piece :: pieces.
Proof.
  destruct s as [ | c rest]; simpl; [eauto | ].
  destruct (Ascii.eqb c sep); [eauto | ].
  destruct (strings_Split rest sep); eauto.
Qed.

(** Splitting around one separator is splitting each side. *)
Lemma strings_Split_app (a b : string) :
  strings_Split (a +:+ String sep b) sep
  = strings_Split a sep ++ strings_Split b sep.
Proof.
  induction a as [ | c a' IH].
  - change ("" +:+ String sep b) with (String sep b). simpl.
    rewrite Ascii.eqb_refl. reflexivity.
  - change (String c a' +:+ String sep b) with (String c (a' +:+ String sep b)).
    simpl. destruct (Ascii.eqb c sep).
    + rewrite IH. reflexivity.
    + rewrite IH.
      destruct (strings_Split_nonempty a') as (p & ps & ->). reflexivity.
Qed.

(** A string without the separator is its own single piece. *)
Lemma strings_Split_none (s : string) :
  hasByte sep s = false -> strings_Split s sep = [s].
Proof.
  induction s as [ | c rest IH]; simpl; [reflexivity | ].
  intros Hno. apply orb_false_iff in Hno as [Hc Hrest].
  rewrite Hc, (IH Hrest). reflexivity.
Qed.

(** No piece has the separator in it. *)
Lemma strings_Split_pieces (s piece : string) :
  piece ∈ strings_Split s sep -> hasByte sep piece = false.
Proof.
  revert piece. induction s as [ | c rest IH]; intros piece; simpl.
  - intros Hin. apply list_elem_of_singleton in Hin as ->. reflexivity.
  - destruct (Ascii.eqb c sep) eqn:Hc.
    + intros Hin. apply elem_of_cons in Hin as [-> | Hin];
        [reflexivity | apply IH, Hin].
    + destruct (strings_Split rest sep) as [ | p ps] eqn:Hrest.
      * intros Hin. apply list_elem_of_singleton in Hin as ->.
        simpl. rewrite Hc. reflexivity.
      * intros Hin. apply elem_of_cons in Hin as [-> | Hin].
        -- simpl. rewrite Hc. apply IH. apply elem_of_cons. left. reflexivity.
        -- apply IH. apply elem_of_cons. right. exact Hin.
Qed.

End Splitting.

(** ** Command.Is, continued *)

Section CommandIsMore.
Implicit Types (m : gmap string value) (terms : list string).

Lemma Is_loop_app m terms terms' (hasAll : bool) :
  Is_loop m (terms ++ terms') hasAll
  = match Is_loop m terms hasAll with
    | Returns r => Is_loop m terms' r
    | Panics msg => Panics msg
    end.
Proof.
  revert hasAll. induction terms as [ | term rest IH]; intros hasAll; simpl.
  - reflexivity.
  - destruct (assertBool (m !! term)); [apply IH | reflexivity].
Qed.

(** The running flag only ever goes down: starting from [hasAll] gives the
    conjunction of [hasAll] with what starting from true gives. *)
Lemma Is_loop_flag m terms (hasAll : bool) :
  Is_loop m terms hasAll
  = match Is_loop m terms true with
    | Returns r => Returns (hasAll && r)
    | Panics msg => Panics msg
    end.
Proof.
  revert hasAll. induction terms as [ | term rest IH]; intros hasAll; simpl.
  - rewrite andb_true_r. reflexivity.
  - destruct (assertBool (m !! term)) as [b | msg]; [ | reflexivity].
    destruct b; simpl.
    + apply IH.
    + rewrite (IH false). destruct (Is_loop m rest true); [ | reflexivity].
      rewrite andb_false_r. reflexivity.
Qed.

(** X1.  A query made of two queries with one space between them is
    answered by the conjunction of their answers; it panics when either
    part does, the left one first. *)
Theorem Is_conjunction (command : Command) (a b : string) :
  Is command (a +:+ " " +:+ b)
  = match Is command a, Is command b with
    | Returns ra, Returns rb => Returns (ra && rb)
    | Returns _, Panics msg => Panics msg
    | Panics msg, _ => Panics msg
    end.
Proof.
  unfold Is. change (a +:+ " " +:+ b) with (a +:+ String " " b).
  rewrite strings_Split_app, Is_loop_app.
  destruct (Is_loop (M command) (strings_Split a " ") true) as [ra | msg];
    [ | reflexivity].
  rewrite Is_loop_flag.
  destruct (Is_loop (M command) (strings_Split b " ") true); reflexivity.
Qed.

Lemma Is_empty_panics (command : Command) :
  (forall b, M command !! "" <> Some (VBool b)) ->
  exists msg, Is command "" = Panics msg.
Proof.
  intros Hnone. unfold Is. simpl.
  destruct (assertBool_Panics (M command !! "") Hnone) as [msg ->].
  exists msg. reflexivity.
Qed.

(** X2.  The empty query, a query that starts or ends with a space, and a
    query with two spaces in a row all contain the empty term.  Unless the
    map holds a boolean under the empty key, which no usage pattern
    produces, [Is] panics on each of them. *)
Theorem Is_stray_space_panics (command : Command) (a b : string) :
  (forall v, M command !! "" <> Some (VBool v)) ->
  (exists msg, Is command "" = Panics msg)
  /\ (exists msg, Is command (" " +:+ b) = Panics msg)
  /\ (exists msg, Is command (a +:+ " ") = Panics msg)
  /\ (exists msg, Is command (a +:+ " " +:+ " " +:+ b) = Panics msg).
Proof.
  intros Hnone.
  assert (forall terms terms' hasAll,
            exists msg, Is_loop (M command) (terms ++ "" :: terms') hasAll
                        = Panics msg) as Hloop.
  { intros terms terms' hasAll. apply Is_loop_not_bool. exists "".
    split; [ | exact Hnone]. apply elem_of_app. right.
    apply elem_of_cons. left. reflexivity. }
  split; [apply Is_empty_panics; exact Hnone | ]. split; [ | split].
  - unfold Is. change (" " +:+ b) with ("" +:+ String " " b).
    rewrite strings_Split_app.
    destruct (strings_Split_nonempty " " b) as (p & ps & ->).
    apply Is_loop_not_bool. exists "". split; [ | exact Hnone].
    apply elem_of_cons. left. reflexivity.
  - unfold Is. change (a +:+ " ") with (a +:+ String " " "").
    rewrite strings_Split_app. apply (Hloop _ []).
  - unfold Is. change (a +:+ " " +:+ " " +:+ b) with (a +:+ String " " (String " " b)).
    rewrite strings_Split_app. simpl (strings_Split (String " " b) " ").
    apply Hloop.
Qed.

(** *** The terms of a query *)

(** Terms without a space, joined by single spaces, are what the split at
    the space gives back. *)
Lemma strings_Split_joinSpaces (terms : list string) :
  terms <> [] ->
  (forall term, term ∈ terms -> hasByte " " term = false) ->
  strings_Split (joinSpaces terms) " " = terms.
Proof.
  induction terms as [ | term rest IH]; intros Hne Hfree; [contradiction | ].
  assert (hasByte " " term = false) as Hterm
    by (apply Hfree; apply elem_of_cons; left; reflexivity).
  destruct rest as [ | term' rest'].
  - simpl. apply strings_Split_none. exact Hterm.
  - change (joinSpaces (term :: term' :: rest'))
      with (term +:+ String " " (joinSpaces (term' :: rest'))).
    rewrite strings_Split_app, (strings_Split_none _ term Hterm), IH.
    + reflexivity.
    + discriminate.
    + intros t Ht. apply Hfree. apply elem_of_cons. right. exact Ht.
Qed.

(** Every query is its pieces joined by single spaces. *)
Lemma joinSpaces_strings_Split (c : string) :
  joinSpaces (strings_Split c " ") = c.
Proof.
  induction c as [ | ch rest IH]; simpl; [reflexivity | ].
  destruct (strings_Split_nonempty " " rest) as (p & ps & Hrest).
  rewrite Hrest in IH |- *.
  destruct (Ascii.eqb ch " ") eqn:Hch.
  - apply Ascii.eqb_eq in Hch as ->.
    change (joinSpaces ("" :: p :: ps)) with (String " " (joinSpaces (p :: ps))).
    rewrite IH. reflexivity.
  - destruct ps as [ | p' ps'].
    + simpl in IH |- *. rewrite IH. reflexivity.
    + change (joinSpaces (String ch p :: p' :: ps'))
        with (String ch (p +:+ String " " (joinSpaces (p' :: ps')))).
      change (joinSpaces (p :: p' :: ps'))
        with (p +:+ String " " (joinSpaces (p' :: ps'))) in IH.
      rewrite IH. reflexivity.
Qed.

(** C10, as the code behaves.  The terms of a query are cut at the single
    space character and at nothing else: every query is, in one way, a
    non-empty sequence of terms without a space in them, joined by single
    spaces (so a leading, trailing or doubled space gives an empty term, and
    a tab or a newline stays inside its term).  For these terms: when the
    map holds a boolean for each of them the call returns, and it returns
    true exactly when every term is mapped to true; when some term is
    missing from the map or mapped to a value that is not a boolean, the
    call does not return, the type assertion panics. *)
Theorem Command_Is_single_space (command : Command) (c : string) :
  (exists terms,
     terms <> []
     /\ (forall term, term ∈ terms -> hasByte " " term = false)
     /\ joinSpaces terms = c
     /\ forall terms',
          terms' <> [] ->
          (forall term, term ∈ terms' -> hasByte " " term = false) ->
          joinSpaces terms' = c ->
          terms' = terms)
  /\ forall terms,
       terms <> [] ->
       (forall term, term ∈ terms -> hasByte " " term = false) ->
       joinSpaces terms = c ->
       ((forall term, term ∈ terms ->
           exists b, M command !! term = Some (VBool b)) ->
        exists r, Is command c = Returns r
          /\ (r = true <->
              forall term, term ∈ terms ->
                M command !! term = Some (VBool true)))
       /\ ((exists term, term ∈ terms
              /\ forall b, M command !! term <> Some (VBool b)) ->
           exists msg, Is command c = Panics msg).
Proof.
  split.
  - exists (strings_Split c " "). split; [ | split; [ | split]].
    + destruct (strings_Split_nonempty " " c) as (p & ps & ->). discriminate.
    + intros term. apply strings_Split_pieces.
    + apply joinSpaces_strings_Split.
    + intros terms' Hne Hfree <-. symmetry.
      apply strings_Split_joinSpaces; assumption.
  - intros terms Hne Hfree <-. unfold Is.
    rewrite (strings_Split_joinSpaces terms Hne Hfree). split.
    + intros Hbool.
      destruct (Is_loop_all_bool (M command) terms true Hbool)
        as (r & Hrun & Hiff).
      exists r. split; [exact Hrun | ]. rewrite Hiff. split.
      * intros [_ Hall]. exact Hall.
      * intros Hall. split; [reflexivity | exact Hall].
    + intros Hbad. apply Is_loop_not_bool. exact Hbad.
Qed.

End CommandIsMore.

(** ** The answer of the identity provider, continued *)

Section ParseValues.

Lemma hasByte_app (c : ascii) (a b : string) :
  hasByte c (a +:+ b) = hasByte c a || hasByte c b.
Proof.
  induction a as [ | c' a' IH]; [reflexivity | ].
  change (String c' a' +:+ b) with (String c' (a' +:+ b)). simpl.
  rewrite IH, orb_assoc. reflexivity.
Qed.

Lemma addLine_pair (values : gmap string string) (key val : string) :
  hasByte "=" key = false ->
  hasByte "=" val = false ->
  addLine values (key +:+ "=" +:+ val) = <[key := val]> values.
Proof.
  intros Hkey Hval. unfold addLine.
  change (key +:+ "=" +:+ val) with (key +:+ String "=" val).
  rewrite strings_Split_app, (strings_Split_none _ key Hkey),
    (strings_Split_none _ val Hval).
  reflexivity.
Qed.

Lemma parseValues_app (body rest : string) :
  parseValues (body +:+ String newline rest)
  = foldl addLine (parseValues body) (strings_Split rest newline).
Proof.
  unfold parseValues. rewrite strings_Split_app. apply foldl_app.
Qed.

(** X3.  When the last line of the body is [key=val], with or without a
    newline after it, the map holds [val] under [key], whatever the lines
    before it say about [key]. *)
Theorem parseValues_last_line_wins (body key val : string) :
  hasByte "=" key = false ->
  hasByte newline key = false ->
  hasByte "=" val = false ->
  hasByte newline val = false ->
  parseValues (body +:+ String newline (key +:+ "=" +:+ val)) !! key = Some val
  /\ parseValues (body +:+ String newline
                    ((key +:+ "=" +:+ val) +:+ String newline ""))
     !! key = Some val.
Proof.
  intros HkeyEq HkeyNl HvalEq HvalNl.
  assert (hasByte newline (key +:+ "=" +:+ val) = false) as Hline.
  { rewrite hasByte_app, HkeyNl.
    change ("=" +:+ val) with (String "=" val). simpl. exact HvalNl. }
  split.
  - rewrite parseValues_app, (strings_Split_none _ _ Hline). simpl.
    rewrite (addLine_pair _ key val HkeyEq HvalEq). apply lookup_insert_eq.
  - rewrite parseValues_app, strings_Split_app,
      (strings_Split_none _ _ Hline).
    simpl. rewrite (addLine_pair _ key val HkeyEq HvalEq).
    apply lookup_insert_eq.
Qed.

(** X4.  A line with more than one [=] is dropped: it adds nothing to the
    map.  In particular an answer that is one such line, say a token that
    itself contains [=], parses to the empty map. *)
Theorem addLine_extra_equals (values : gmap string string)
    (key val rest : string) :
  addLine values (key +:+ "=" +:+ val +:+ "=" +:+ rest) = values
  /\ (hasByte newline (key +:+ "=" +:+ val +:+ "=" +:+ rest) = false ->
      parseValues (key +:+ "=" +:+ val +:+ "=" +:+ rest) = ∅).
Proof.
  assert (forall vs, addLine vs (key +:+ "=" +:+ val +:+ "=" +:+ rest) = vs)
    as Hdrop.
  { intros vs. unfold addLine.
    change (key +:+ "=" +:+ val +:+ "=" +:+ rest)
      with (key +:+ String "=" (val +:+ String "=" rest)).
    rewrite !strings_Split_app.
    destruct (strings_Split_nonempty "=" key) as (p1 & ps1 & ->).
    destruct (strings_Split_nonempty "=" val) as (p2 & ps2 & ->).
    destruct (strings_Split_nonempty "=" rest) as (p3 & ps3 & ->).
    destruct ps1 as [ | ? [ | ? ?]]; destruct ps2; reflexivity. }
  split; [apply Hdrop | ].
  intros Hline. unfold parseValues.
  rewrite (strings_Split_none _ _ Hline). simpl. apply Hdrop.
Qed.

End ParseValues.

(** ** session.go, continued *)

Section Coverage.
Context `{Platform}.

(** *** The steps of [Signin], case by case *)

Lemma cookieFileName_no_home (session : Session) (w : World) :
  homeDir w = None ->
  cookieFileName session w = (Panics nilDereference, w).
Proof.
  intros Hnone. unfold cookieFileName, bind, user_Current. rewrite Hnone.
  reflexivity.
Qed.

Lemma saveTrays_no_home (session : Session) (trays : list CookieTray)
    (w : World) :
  homeDir w = None -> saveTrays session trays w = (Panics nilDereference, w).
Proof.
  intros Hnone. unfold saveTrays, bind at 1.
  rewrite (cookieFileName_no_home session w Hnone). reflexivity.
Qed.

(** Whatever the save comes to, it leaves every file but the cookie file
    alone, and it does not report success without having written. *)
Lemma saveTrays_cases (session : Session) (trays : list CookieTray) (w : World) :
  (homeDir w = None /\ saveTrays session trays w = (Panics nilDereference, w))
  \/ (exists home, homeDir w = Some home
        /\ ((((home +:+ "/.cookies") ∈ denied w)
             /\ saveTrays session trays w = (Returns (Some ErrInvalid), w))
            \/ (((home +:+ "/.cookies") ∉ denied w)
                /\ saveTrays session trays w
                   = (Returns None,
                      setFiles (<[home +:+ "/.cookies" := gob_Encode trays]>
                                  (files w)) w)))).
Proof.
  destruct (homeDir w) as [home | ] eqn:Hhome.
  - right. exists home. split; [reflexivity | ].
    destruct (decide ((home +:+ "/.cookies") ∈ denied w)) as [Hdenied | Hfree].
    + left. split; [exact Hdenied | ].
      apply (saveTrays_denied session trays w home Hhome Hdenied).
    + right. split; [exact Hfree | ].
      apply (saveTrays_writes session trays w home Hhome Hfree).
  - left. split; [reflexivity | ]. apply saveTrays_no_home. exact Hhome.
Qed.

Lemma afterGet_same (url : string) (w : World) :
  files (afterGet url w) = files w
  /\ denied (afterGet url w) = denied w
  /\ homeDir (afterGet url w) = homeDir w
  /\ tty (afterGet url w) = tty w
  /\ remote (afterGet url w) = remote w.
Proof. unfold afterGet. destruct (url_Parse url); repeat split. Qed.

Lemma Client_Get_world (c : Client) (url : string) (w : World) :
  exists jar resp err,
    Client_Get c url w = (Returns (jar, resp, err), afterGet url w).
Proof.
  unfold Client_Get, afterGet. destruct (url_Parse url) as [u | e].
  - destruct (remote w url); eexists _, _, _; reflexivity.
  - eexists _, _, _. reflexivity.
Qed.

Lemma afterLogin_same (session : Session) (username : string)
    (values : gmap string string) (w : World) :
  files (afterLogin session username values w) = files w
  /\ denied (afterLogin session username values w) = denied w
  /\ homeDir (afterLogin session username values w) = homeDir w.
Proof.
  unfold afterLogin.
  set (v2 := loginValues (Local session) username values).
  destruct (afterGet_same (serviceLoginURL session v2) w)
    as (Hf1 & Hd1 & Hh1 & _).
  destruct (Session_App session) as [app | ]; [ | auto].
  destruct (0 <? String.length (Application app))%nat; [ | auto].
  destruct (afterGet_same (appLoginURL session v2)
              (afterGet (serviceLoginURL session v2) w)) as (Hf2 & Hd2 & Hh2 & _).
  repeat split; congruence.
Qed.

(** The second half of [Signin] sends its requests and then, when the
    session has its application and both its URLs, is the save of two
    trays; otherwise it panics on the nil pointer. *)
Lemma fetchCookies_cases (session : Session) (c : Client) (username : string)
    (values : gmap string string) (w : World) :
  match Session_App session, AppURL session, ServiceURL session with
  | Some _, Some appURL, Some serviceURL =>
      exists jar,
        fetchCookies session c username values w
        = saveTrays session (traysOf session jar appURL serviceURL)
            (afterLogin session username values w)
  | _, _, _ =>
      fetchCookies session c username values w
      = (Panics nilDereference, afterLogin session username values w)
  end.
Proof.
  unfold fetchCookies, afterLogin, bind.
  set (v2 := loginValues (Local session) username values).
  destruct (Client_Get_world c (serviceLoginURL session v2) w)
    as (jar1 & resp1 & err1 & Hget1).
  rewrite Hget1.
  destruct (Session_App session) as [app | ]; [ | reflexivity].
  cbn [deref ret].
  destruct (0 <? String.length (Application app))%nat.
  - destruct (Client_Get_world
                {| CheckRedirect := CheckRedirect c; Client_Jar := jar1 |}
                (appLoginURL session v2)
                (afterGet (serviceLoginURL session v2) w))
      as (jar2 & resp2 & err2 & Hget2).
    rewrite Hget2.
    destruct (AppURL session) as [appURL | ]; [ | reflexivity].
    destruct (ServiceURL session) as [serviceURL | ]; [ | reflexivity].
    exists jar2. reflexivity.
  - destruct (AppURL session) as [appURL | ]; [ | reflexivity].
    destruct (ServiceURL session) as [serviceURL | ]; [ | reflexivity].
    exists jar1. reflexivity.
Qed.

(** The identity stage never panics; it ends [Signin] with an error or
    lets it go on. *)
Lemma authenticate_cases (session : Session) (username password : string)
    (w : World) :
  exists w', files w' = files w /\ denied w' = denied w
    /\ homeDir w' = homeDir w
    /\ ((exists e, authenticate session username password w
                   = (Returns (Return (Some e)), w'))
        \/ (exists values, authenticate session username password w
                           = (Returns (Continue values), w'))).
Proof.
  unfold authenticate. destruct (Local session); cbn [negb].
  - exists w. repeat split. right. eexists. reflexivity.
  - exists (logRequest (clientLoginURL username password) w). repeat split.
    unfold bind, http_Get.
    destruct (remote w (clientLoginURL username password)) as [e | r cs body].
    + left. eexists. reflexivity.
    + cbn [deref ret Body ioutil_ReadAll]. destruct body as [contents | e].
      * cbn [ioutil_ReadAll].
        destruct (parseValues contents !! "Error") as [msg | ].
        -- left. eexists. reflexivity.
        -- right. eexists. reflexivity.
      * left. eexists. reflexivity.
Qed.

(** [Signin] as a whole: an error before anything is saved, a panic, or
    the save of two trays; up to the save no file has changed. *)
Lemma Signin_cases (session : Session) (w : World) :
  exists w', files w' = files w /\ denied w' = denied w
    /\ homeDir w' = homeDir w
    /\ ((exists e, Signin session w = (Returns (Some e), w'))
        \/ Signin session w = (Panics nilDereference, w')
        \/ (exists jar appURL serviceURL,
              AppURL session = Some appURL
              /\ ServiceURL session = Some serviceURL
              /\ Signin session w
                 = saveTrays session (traysOf session jar appURL serviceURL) w')).
Proof.
  destruct (readCredentials_returns w) as (username & password & t & Hcred).
  destruct (authenticate_cases session username password (setTty t w))
    as (w1 & Hf1 & Hd1 & Hh1 & Hauth).
  assert (Signin session w
          = match authenticate session username password (setTty t w) with
            | (Returns (Return err), w') => (Returns err, w')
            | (Returns (Continue values), w') =>
                fetchCookies session
                  {| CheckRedirect := redirectPolicy;
                     Client_Jar := cookiejar_New |} username values w'
            | (Panics msg, w') => (Panics msg, w')
            end) as ->.
  { unfold Signin, bind at 1. rewrite Hcred. unfold bind.
    destruct (authenticate session username password (setTty t w))
      as [[[err | values] | msg] w']; reflexivity. }
  destruct Hauth as [[e Hauth] | [values Hauth]]; rewrite Hauth.
  - exists w1. repeat split; try assumption. left. exists e. reflexivity.
  - destruct (afterLogin_same session username values w1) as (Hf2 & Hd2 & Hh2).
    exists (afterLogin session username values w1).
    split; [rewrite Hf2, Hf1; reflexivity | ].
    split; [rewrite Hd2, Hd1; reflexivity | ].
    split; [rewrite Hh2, Hh1; reflexivity | ].
    pose proof (fetchCookies_cases session
                  {| CheckRedirect := redirectPolicy; Client_Jar := cookiejar_New |}
                  username values w1) as Hfetch.
    destruct (Session_App session) as [app | ]; [ | right; left; exact Hfetch].
    destruct (AppURL session) as [a | ]; [ | right; left; exact Hfetch].
    destruct (ServiceURL session) as [s | ]; [ | right; left; exact Hfetch].
    destruct Hfetch as [jar Hsave].
    right. right. exists jar, a, s. repeat split. exact Hsave.
Qed.

(** A sign-in that reports success went through the save: the home
    directory is known, the cookie file was writable, and the world
    afterwards differs from the one before at most in the terminal, the
    requests sent and the cookie file. *)
Lemma Signin_success (session : Session) (w w1 : World) :
  Signin session w = (Returns None, w1) ->
  exists home jar appURL serviceURL,
    homeDir w = Some home
    /\ ((home +:+ "/.cookies") ∉ denied w)
    /\ AppURL session = Some appURL
    /\ ServiceURL session = Some serviceURL
    /\ homeDir w1 = Some home
    /\ denied w1 = denied w
    /\ files w1
       = <[home +:+ "/.cookies"
             := gob_Encode (traysOf session jar appURL serviceURL)]> (files w).
Proof.
  intros Hrun.
  destruct (Signin_cases session w)
    as (w' & Hf & Hd & Hh & [[e He] | [Hpanic | (jar & a & s & Ha & Hs & Hsave)]]).
  - rewrite He in Hrun. discriminate.
  - rewrite Hpanic in Hrun. discriminate.
  - rewrite Hsave in Hrun.
    destruct (saveTrays_success session _ w' w1 Hrun) as (home & Hhome & Hfree & ->).
    exists home, jar, a, s. cbn [files denied homeDir setFiles].
    repeat split; congruence.
Qed.

(** X5.  When the request to the identity provider fails on the network,
    or its body cannot be read, [Signin] returns that very error; it sends
    no other request and writes no file. *)
Theorem Signin_identity_failure (session : Session) (w w1 : World)
    (username password : string) (err : option error) (e : error) :
  Local session = false ->
  readCredentials w = (Returns (username, password, err), w1) ->
  (remote w (clientLoginURL username password) = NetFail e
   \/ exists r cs,
        remote w (clientLoginURL username password) = Reply r cs (Err e)) ->
  exists w',
    Signin session w = (Returns (Some e), w')
    /\ files w' = files w
    /\ requests w' = requests w ++ [clientLoginURL username password].
Proof.
  intros Hremote Hcred Hfail.
  destruct (readCredentials_world _ _ _ _ _ Hcred) as (-> & t & ->).
  eexists. unfold Signin, bind at 1. rewrite Hcred.
  unfold bind at 1, authenticate. rewrite Hremote. cbn [negb].
  unfold bind, http_Get. cbn [remote setTty].
  destruct Hfail as [-> | (r & cs & ->)]; repeat split.
Qed.

(** X6.  When the cookie file cannot be created, [Signin] never reports
    success and changes no file.  A local sign-in with a complete session
    then returns [os.ErrInvalid], the failure of the write on the nil file,
    not the permission error [os.Create] gave. *)
Theorem Signin_create_failure (session : Session) (w : World) (home : string) :
  homeDir w = Some home ->
  (home +:+ "/.cookies") ∈ denied w ->
  files (snd (Signin session w)) = files w
  /\ fst (Signin session w) <> Returns None
  /\ (Local session = true ->
      is_Some (Session_App session) ->
      is_Some (AppURL session) ->
      is_Some (ServiceURL session) ->
      fst (Signin session w) = Returns (Some ErrInvalid)).
Proof.
  intros Hhome Hdenied.
  assert (forall trays w', files w' = files w -> denied w' = denied w ->
            homeDir w' = homeDir w ->
            saveTrays session trays w' = (Returns (Some ErrInvalid), w'))
    as Hsave.
  { intros trays w' Hf Hd Hh. apply (saveTrays_denied session trays w' home).
    - rewrite Hh. exact Hhome.
    - rewrite Hd. exact Hdenied. }
  split; [ | split].
  - destruct (Signin_cases session w)
      as (w' & Hf & Hd & Hh & [[e He] | [Hpanic | (jar & a & s & _ & _ & Hrun)]]).
    + rewrite He. exact Hf.
    + rewrite Hpanic. exact Hf.
    + rewrite Hrun, (Hsave _ w' Hf Hd Hh). exact Hf.
  - destruct (Signin_cases session w)
      as (w' & Hf & Hd & Hh & [[e He] | [Hpanic | (jar & a & s & _ & _ & Hrun)]]).
    + rewrite He. discriminate.
    + rewrite Hpanic. discriminate.
    + rewrite Hrun, (Hsave _ w' Hf Hd Hh). discriminate.
  - intros Hlocal [app Happ] [a Ha] [s Hs].
    destruct (readCredentials_returns w) as (username & password & t & Hcred).
    unfold Signin, bind at 1. rewrite Hcred. unfold bind at 1.
    rewrite (authenticate_local session (setTty t w) username password Hlocal).
    pose proof (fetchCookies_cases session
                  {| CheckRedirect := redirectPolicy; Client_Jar := cookiejar_New |}
                  username ∅ (setTty t w)) as Hfetch.
    rewrite Happ, Ha, Hs in Hfetch. destruct Hfetch as [jar ->].
    destruct (afterLogin_same session username ∅ (setTty t w)) as (Hf & Hd & Hh).
    rewrite (Hsave _ _ Hf Hd Hh). reflexivity.
Qed.

(** X7.  Whenever [Signin] returns nil the cookie file has been written:
    it holds the encoding of two trays, the application endpoint's and then
    the service endpoint's, and no other file has changed. *)
Theorem Signin_success_persisted (session : Session) (w w1 : World) :
  Signin session w = (Returns None, w1) ->
  exists home trays,
    homeDir w = Some home
    /\ files w1 = <[home +:+ "/.cookies" := gob_Encode trays]> (files w)
    /\ map Path trays
       = [AppScheme session +:+ "://" +:+ AppHost session;
          ServiceScheme session +:+ "://" +:+ ServiceHost session].
Proof.
  intros Hrun.
  destruct (Signin_success session w w1 Hrun)
    as (home & jar & a & s & Hhome & _ & _ & _ & _ & _ & Hfiles).
  exists home, (traysOf session jar a s). repeat split; assumption.
Qed.

(** X8.  Whatever [Signin] comes to -- success, an error or a panic -- it
    changes no file other than the cookie file. *)
Theorem Signin_only_cookie_file (session : Session) (w : World) (name : string) :
  (forall home, homeDir w = Some home -> name <> home +:+ "/.cookies") ->
  files (snd (Signin session w)) !! name = files w !! name.
Proof.
  intros Hother.
  destruct (Signin_cases session w)
    as (w' & Hf & Hd & Hh & [[e He] | [Hpanic | (jar & a & s & _ & _ & Hrun)]]).
  - rewrite He. cbn [snd]. rewrite Hf. reflexivity.
  - rewrite Hpanic. cbn [snd]. rewrite Hf. reflexivity.
  - rewrite Hrun.
    destruct (saveTrays_cases session (traysOf session jar a s) w')
      as [[_ ->] | (home & Hhome & [[_ ->] | [_ ->]])]; cbn [snd];
      try (rewrite Hf; reflexivity).
    cbn [files setFiles]. rewrite lookup_insert_ne, Hf; [reflexivity | ].
    intros Heq. apply (Hother home); [congruence | ]. symmetry. exact Heq.
Qed.

Lemma saveTrays_requests (session : Session) (trays : list CookieTray)
    (w : World) :
  requests (snd (saveTrays session trays w)) = requests w.
Proof.
  destruct (saveTrays_cases session trays w)
    as [[_ ->] | (home & _ & [[_ ->] | [_ ->]])]; reflexivity.
Qed.

(** X9.  A local sign-in never contacts the identity provider.  When the
    login URLs parse, the requests it sends are the one to the service
    endpoint's [/_ah/login] and then, only when the application identifier
    is not empty, the one to the application endpoint's; each is sent
    once. *)
Theorem Signin_local_requests (session : Session) (w w1 : World)
    (username password : string) (err : option error) (app : App)
    (u1 u2 : URL) :
  Local session = true ->
  Session_App session = Some app ->
  readCredentials w = (Returns (username, password, err), w1) ->
  url_Parse (serviceLoginURL session (loginValues true username ∅)) = Ok u1 ->
  url_Parse (appLoginURL session (loginValues true username ∅)) = Ok u2 ->
  requests (snd (Signin session w))
  = requests w
    ++ serviceLoginURL session (loginValues true username ∅)
       :: (if (0 <? String.length (Application app))%nat
           then [appLoginURL session (loginValues true username ∅)]
           else []).
Proof.
  intros Hlocal Happ Hcred Hp1 Hp2.
  destruct (readCredentials_world _ _ _ _ _ Hcred) as (-> & t & ->).
  assert (requests (afterLogin session username ∅ (setTty t w))
          = requests w
            ++ serviceLoginURL session (loginValues true username ∅)
               :: (if (0 <? String.length (Application app))%nat
                   then [appLoginURL session (loginValues true username ∅)]
                   else [])) as Hsent.
  { unfold afterLogin, afterGet. rewrite Hlocal, Happ, Hp1.
    destruct (0 <? String.length (Application app))%nat.
    - rewrite Hp2. cbn [requests logRequest setTty].
      rewrite <- app_assoc. reflexivity.
    - reflexivity. }
  unfold Signin, bind at 1. rewrite Hcred. unfold bind at 1.
  rewrite (authenticate_local session (setTty t w) username password Hlocal).
  pose proof (fetchCookies_cases session
                {| CheckRedirect := redirectPolicy; Client_Jar := cookiejar_New |}
                username ∅ (setTty t w)) as Hfetch.
  rewrite Happ in Hfetch.
  destruct (AppURL session) as [a | ]; [ | rewrite Hfetch; exact Hsent].
  destruct (ServiceURL session) as [s | ]; [ | rewrite Hfetch; exact Hsent].
  destruct Hfetch as [jar ->]. rewrite saveTrays_requests. exact Hsent.
Qed.

(** X10.  What a successful [Signin] saved is what the cookie read of the
    next [NewSession] returns, provided gob carries trays through: two
    trays, for the application and the service endpoint. *)
Theorem Signin_then_loadTrays (session session' : Session) (w w1 : World) :
  (forall trays, gob_Decode (gob_Encode trays) = Ok trays) ->
  Signin session w = (Returns None, w1) ->
  exists trays,
    loadTrays session' w1 = (Returns (trays, None), w1)
    /\ map Path trays
       = [AppScheme session +:+ "://" +:+ AppHost session;
          ServiceScheme session +:+ "://" +:+ ServiceHost session].
Proof.
  intros Hcodec Hrun.
  destruct (Signin_success session w w1 Hrun)
    as (home & jar & a & s & Hhome & Hfree & _ & _ & Hhome1 & Hdenied1 & Hfiles).
  exists (traysOf session jar a s). split; [ | reflexivity].
  rewrite (loadTrays_present session' w1 home
             (gob_Encode (traysOf session jar a s))).
  - rewrite Hcodec. reflexivity.
  - exact Hhome1.
  - rewrite Hdenied1. exact Hfree.
  - rewrite Hfiles. apply lookup_insert_eq.
Qed.

(** *** Signing out, continued *)

Lemma Signout_cases (session : Session) (w : World) :
  (homeDir w = None /\ Signout session w = (Panics nilDereference, w))
  \/ exists home, homeDir w = Some home
       /\ Signout session w = os_Remove (home +:+ "/.cookies") w.
Proof.
  destruct (homeDir w) as [home | ] eqn:Hhome.
  - right. exists home. split; [reflexivity | ].
    unfold Signout, bind. rewrite (cookieFileName_home session w home Hhome).
    reflexivity.
  - left. split; [reflexivity | ]. unfold Signout, bind.
    rewrite (cookieFileName_no_home session w Hhome). reflexivity.
Qed.

(** X11.  After a [Signin] that returned nil, a [Signout] that may remove
    the cookie file returns nil and the file is gone; every other file is
    as it was before the sign-in.  That the file may be removed is a
    condition of its own: having been able to write the file does not give
    it. *)
Theorem Signin_then_Signout (session session' : Session) (w w1 : World)
    (home : string) :
  Signin session w = (Returns None, w1) ->
  homeDir w1 = Some home ->
  (home +:+ "/.cookies") ∉ denied w1 ->
  exists w2,
    Signout session' w1 = (Returns None, w2)
    /\ files w2 !! (home +:+ "/.cookies") = None
    /\ forall name, name <> home +:+ "/.cookies" ->
         files w2 !! name = files w !! name.
Proof.
  intros Hrun Hhome1 Hremovable.
  destruct (Signin_success session w w1 Hrun)
    as (home' & jar & a & s & _ & _ & _ & _ & Hhome1' & _ & Hfiles).
  assert (home' = home) as -> by congruence.
  eexists.
  unfold Signout, bind. rewrite (cookieFileName_home session' w1 home Hhome1).
  unfold os_Remove. rewrite decide_False by exact Hremovable.
  rewrite Hfiles, lookup_insert_eq. split; [reflexivity | ].
  cbn [files setFiles]. split.
  - apply lookup_delete_eq.
  - intros name Hne.
    rewrite lookup_delete_ne, lookup_insert_ne by (symmetry; exact Hne).
    reflexivity.
Qed.

(** X12.  Signing out twice: the second [Signout] finds no file, returns
    the error of [os.Remove] and changes nothing. *)
Theorem Signout_twice (session session' : Session) (w : World) (home : string) :
  homeDir w = Some home ->
  (home +:+ "/.cookies") ∉ denied w ->
  Signout session' (snd (Signout session w))
  = (Returns (Some (notExist "remove" (home +:+ "/.cookies"))),
     snd (Signout session w)).
Proof.
  intros Hhome Hfree.
  assert (forall s w', homeDir w' = Some home ->
            (home +:+ "/.cookies") ∉ denied w' ->
            files w' !! (home +:+ "/.cookies") = None ->
            Signout s w'
            = (Returns (Some (notExist "remove" (home +:+ "/.cookies"))), w'))
    as Habsent.
  { intros s w' Hh Hd Hnone. unfold Signout, bind.
    rewrite (cookieFileName_home s w' home Hh).
    unfold os_Remove. rewrite decide_False by exact Hd. rewrite Hnone.
    reflexivity. }
  destruct (files w !! (home +:+ "/.cookies")) as [data | ] eqn:Hdata.
  - assert (Signout session w
            = (Returns None, setFiles (delete (home +:+ "/.cookies") (files w)) w))
      as ->.
    { unfold Signout, bind. rewrite (cookieFileName_home session w home Hhome).
      unfold os_Remove. rewrite decide_False by exact Hfree. rewrite Hdata.
      reflexivity. }
    cbn [snd]. apply Habsent; [exact Hhome | exact Hfree | ].
    cbn [files setFiles]. apply lookup_delete_eq.
  - rewrite (Habsent session w Hhome Hfree Hdata). cbn [snd].
    apply Habsent; assumption.
Qed.

(** X13.  Whatever [Signout] comes to, it changes no file other than the
    cookie file, and it sends nothing. *)
Theorem Signout_only_cookie_file (session : Session) (w : World) (name : string) :
  (forall home, homeDir w = Some home -> name <> home +:+ "/.cookies") ->
  files (snd (Signout session w)) !! name = files w !! name
  /\ requests (snd (Signout session w)) = requests w.
Proof.
  intros Hother.
  destruct (Signout_cases session w) as [[_ ->] | (home & Hhome & ->)].
  - split; reflexivity.
  - unfold os_Remove.
    destruct (decide ((home +:+ "/.cookies") ∈ denied w)); [split; reflexivity | ].
    destruct (files w !! (home +:+ "/.cookies")); [ | split; reflexivity].
    cbn [snd files requests setFiles]. split; [ | reflexivity].
    apply lookup_delete_ne. intros Heq. apply (Hother home Hhome).
    symmetry. exact Heq.
Qed.

(** X14.  The path of the cookie file is the home directory of the current
    user with [/.cookies] after it.  When the user lookup fails there is no
    such path: the cookie read, the cookie write and [Signout] all panic on
    the nil user record instead of returning an error, and change nothing. *)
Theorem cookieFileName_without_user (session : Session)
    (trays : list CookieTray) (w : World) :
  homeDir w = None ->
  Signout session w = (Panics nilDereference, w)
  /\ saveTrays session trays w = (Panics nilDereference, w)
  /\ loadTrays session w = (Panics nilDereference, w).
Proof.
  intros Hnone. split; [ | split].
  - unfold Signout, bind. rewrite (cookieFileName_no_home session w Hnone).
    reflexivity.
  - apply saveTrays_no_home. exact Hnone.
  - unfold loadTrays, bind at 1.
    rewrite (cookieFileName_no_home session w Hnone). reflexivity.
Qed.

(** X15.  The save truncates: after two saves the cookie file holds the
    second sequence of trays only, and that is what the cookie read returns
    when gob carries it through. *)
Theorem saveTrays_replaces (session session' session'' : Session)
    (first second : list CookieTray) (w w1 w2 : World) :
  gob_Decode (gob_Encode second) = Ok second ->
  saveTrays session first w = (Returns None, w1) ->
  saveTrays session' second w1 = (Returns None, w2) ->
  files w2 = files (snd (saveTrays session' second w))
  /\ loadTrays session'' w2 = (Returns (second, None), w2).
Proof.
  intros Hcodec Hfirst Hsecond.
  destruct (saveTrays_success session first w w1 Hfirst)
    as (home & Hhome & Hfree & Hw1).
  assert (homeDir w1 = Some home) as Hhome1 by (rewrite Hw1; exact Hhome).
  assert ((home +:+ "/.cookies") ∉ denied w1) as Hfree1
    by (rewrite Hw1; exact Hfree).
  rewrite (saveTrays_writes session' second w1 home Hhome1 Hfree1) in Hsecond.
  inversion Hsecond as [Hw2]. clear Hsecond. rewrite Hw1.
  rewrite (saveTrays_writes session' second w home Hhome Hfree).
  cbn [snd files setFiles]. split.
  - apply insert_insert_eq.
  - rewrite (loadTrays_present session'' _ home (gob_Encode second)).
    + rewrite Hcodec. reflexivity.
    + exact Hhome.
    + exact Hfree.
    + cbn [files setFiles]. apply lookup_insert_eq.
Qed.

(** *** Reading the descriptor and the credentials, continued *)

(** X16.  [readApp] returns either the application it decoded from
    [path/app.yaml] with a nil error, or no application with an error;
    never both, never neither.  It changes nothing. *)
Theorem readApp_app_or_error (path : string) (w : World) :
  (exists app bytes,
     readApp path w = (Returns (Some app, None), w)
     /\ files w !! (path +:+ "/app.yaml") = Some bytes
     /\ yaml_Unmarshal bytes = Ok app)
  \/ (exists e, readApp path w = (Returns (None, Some e), w)).
Proof.
  unfold readApp, bind, ioutil_ReadFile.
  destruct (decide ((path +:+ "/app.yaml") ∈ denied w)).
  - right. eexists. reflexivity.
  - destruct (files w !! (path +:+ "/app.yaml")) as [bytes | ] eqn:Hfile.
    + cbn [ret]. destruct (yaml_Unmarshal bytes) as [app | e] eqn:Hyaml.
      * left. exists app, bytes. repeat split. exact Hyaml.
      * right. eexists. reflexivity.
    + right. eexists. reflexivity.
Qed.

(** X17.  On every path through [readCredentials] -- raw mode refused, the
    name not read, the password not read, both read -- the terminal is in
    the mode it was in before the call, and nothing but the terminal's
    input has changed. *)
Theorem readCredentials_restores_mode (w : World) :
  rawMode (tty (snd (readCredentials w))) = rawMode (tty w)
  /\ isTerminal (tty (snd (readCredentials w))) = isTerminal (tty w)
  /\ files (snd (readCredentials w)) = files w
  /\ requests (snd (readCredentials w)) = requests w.
Proof.
  destruct w as [fs dn home [istty mode inp] net reqs].
  unfold readCredentials, bind, terminal_MakeRaw; simpl.
  destruct istty; simpl; [ | repeat split].
  unfold Terminal_ReadLine at 1; simpl.
  destruct inp as [ | line1 inp]; simpl; [repeat split | ].
  unfold Terminal_ReadPassword, Terminal_ReadLine; simpl.
  destruct inp as [ | line2 inp]; simpl; repeat split.
Qed.

(** X18.  At a terminal where a name and a password are typed,
    [readCredentials] returns them in that order and takes exactly these
    two lines from the input. *)
Theorem readCredentials_two_lines (w : World) (username password : string)
    (rest : list string) :
  isTerminal (tty w) = true ->
  input (tty w) = username :: password :: rest ->
  fst (readCredentials w) = Returns (username, password, None)
  /\ input (tty (snd (readCredentials w))) = rest.
Proof.
  destruct w as [fs dn home [istty mode inp] net reqs]; simpl.
  intros -> ->. split; reflexivity.
Qed.

(** X19.  At a terminal where the input ends early, [readCredentials]
    still returns a nil error: with no line typed the credentials are both
    empty, with only the name typed the password is empty. *)
Theorem readCredentials_short_input (w : World) :
  isTerminal (tty w) = true ->
  (input (tty w) = [] -> fst (readCredentials w) = Returns ("", "", None))
  /\ (forall username, input (tty w) = [username] ->
        fst (readCredentials w) = Returns (username, "", None)
        /\ input (tty (snd (readCredentials w))) = []).
Proof.
  destruct w as [fs dn home [istty mode inp] net reqs]; simpl.
  intros ->. split.
  - intros ->. reflexivity.
  - intros username ->. split; reflexivity.
Qed.

(** X20.  [appValues] is the query [app_id=...&version=...] of the
    session's application, identifier first, both values escaped; on a
    session without an application it panics. *)
Theorem appValues_encoding (session : Session) (w : World) :
  match Session_App session with
  | Some a =>
      exists values,
        appValues session w = (Returns values, w)
        /\ Values_Encode values
           = "app_id=" +:+ url_QueryEscape (Application a)
             +:+ "&version=" +:+ url_QueryEscape (Version a)
  | None => appValues session w = (Panics nilDereference, w)
  end.
Proof.
  unfold appValues, bind. destruct (Session_App session) as [a | ];
    [ | reflexivity].
  eexists. split; reflexivity.
Qed.

Lemma loginValues_remote (username : string) (values : gmap string string) :
  Values_Encode (loginValues false username values)
  = "auth=" +:+ url_QueryEscape (default "" (values !! "Auth"))
    +:+ "&continue=http%3A%2F%2Flocalhost".
Proof. reflexivity. Qed.

(** X21.  A remote sign-in that the identity provider accepts sends three
    requests at most, each once: the one to the identity provider, the one
    to the service endpoint's [/_ah/login] and, when the application
    identifier is not empty, the one to the application endpoint's.  The
    query of the login requests is the escaped token of the answer and the
    fixed [continue] address; the user name and the password are not in
    it. *)
Theorem Signin_remote_requests (session : Session) (w w1 : World)
    (username password : string) (err : option error)
    (r : bool) (cs : list Cookie) (contents : string) (app : App)
    (u1 u2 : URL) :
  Local session = false ->
  Session_App session = Some app ->
  readCredentials w = (Returns (username, password, err), w1) ->
  remote w (clientLoginURL username password) = Reply r cs (Ok contents) ->
  parseValues contents !! "Error" = None ->
  url_Parse (serviceLoginURL session
               (loginValues false username (parseValues contents))) = Ok u1 ->
  url_Parse (appLoginURL session
               (loginValues false username (parseValues contents))) = Ok u2 ->
  let query :=
    "auth=" +:+ url_QueryEscape (default "" (parseValues contents !! "Auth"))
    +:+ "&continue=http%3A%2F%2Flocalhost" in
  requests (snd (Signin session w))
  = requests w
    ++ clientLoginURL username password
       :: (ServiceScheme session +:+ "://" +:+ ServiceHost session
           +:+ "/_ah/login?" +:+ query)
       :: (if (0 <? String.length (Application app))%nat
           then [AppScheme session +:+ "://" +:+ AppHost session
                 +:+ "/_ah/login?" +:+ query]
           else []).
Proof.
  intros Hremote Happ Hcred Hreply Hnoerr Hp1 Hp2 query.
  destruct (readCredentials_world _ _ _ _ _ Hcred) as (-> & t & ->).
  set (w2 := logRequest (clientLoginURL username password) (setTty t w)).
  assert (requests (afterLogin session username (parseValues contents) w2)
          = requests w
            ++ clientLoginURL username password
               :: serviceLoginURL session
                    (loginValues false username (parseValues contents))
               :: (if (0 <? String.length (Application app))%nat
                   then [appLoginURL session
                           (loginValues false username (parseValues contents))]
                   else [])) as Hsent.
  { unfold afterLogin, afterGet. rewrite Hremote, Happ, Hp1.
    destruct (0 <? String.length (Application app))%nat.
    - rewrite Hp2. cbn [requests logRequest setTty w2].
      rewrite <- !app_assoc. reflexivity.
    - cbn [requests logRequest setTty w2]. rewrite <- app_assoc. reflexivity. }
  unfold serviceLoginURL, appLoginURL in Hsent.
  rewrite loginValues_remote in Hsent. fold query in Hsent.
  unfold Signin, bind at 1. rewrite Hcred. unfold bind at 1.
  rewrite (authenticate_Continue session (setTty t w) username password r cs
             contents Hremote Hreply Hnoerr).
  fold w2.
  pose proof (fetchCookies_cases session
                {| CheckRedirect := redirectPolicy; Client_Jar := cookiejar_New |}
                username (parseValues contents) w2) as Hfetch.
  rewrite Happ in Hfetch.
  destruct (AppURL session) as [a | ]; [ | rewrite Hfetch; exact Hsent].
  destruct (ServiceURL session) as [s | ]; [ | rewrite Hfetch; exact Hsent].
  destruct Hfetch as [jar ->]. rewrite saveTrays_requests. exact Hsent.
Qed.

(** *** Constructing a session, continued *)

(** X22.  Restoring cookies skips the trays whose origin does not parse and
    goes on with the others: the jar is the one the parseable trays alone
    give.  When no origin parses the jar is left as it was. *)
Theorem installTrays_skips_unparseable (jar : Jar) (trays : list CookieTray) :
  installTrays jar trays
  = installTrays jar (filter (fun tray => parses (Path tray) = true) trays)
  /\ ((forall tray, tray ∈ trays -> parses (Path tray) = false) ->
      installTrays jar trays = jar).
Proof.
  split.
  - revert jar. induction trays as [ | tray rest IH]; intros jar.
    + reflexivity.
    + rewrite filter_cons. simpl installTrays at 1.
      destruct (decide (parses (Path tray) = true)) as [Hok | Hbad].
      * revert Hok. unfold parses. simpl.
        destruct (url_Parse (Path tray)) as [u | e]; [ | discriminate].
        intros _. apply IH.
      * revert Hbad. unfold parses.
        destruct (url_Parse (Path tray)) as [u | e]; [ | intros _; apply IH].
        intros Hbad. exfalso. apply Hbad. reflexivity.
  - induction trays as [ | tray rest IH]; intros Hnone; simpl.
    + reflexivity.
    + assert (parses (Path tray) = false) as Hbad
        by (apply Hnone; apply elem_of_cons; left; reflexivity).
      unfold parses in Hbad. destruct (url_Parse (Path tray)); [discriminate | ].
      apply IH. intros t Ht. apply Hnone. apply elem_of_cons. right. exact Ht.
Qed.


(** X24.  When [url.Parse] turns an endpoint down, [NewSession] returns no
    session and that error, before it looks for the home directory or the
    cookie file. *)
Theorem NewSession_parse_failure (path : string) (local : bool) (w : World)
    (app : option App) (err : option error)
    (serviceHost serviceScheme appHost appScheme : string) (e : error) :
  readApp path w = (Returns (app, err), w) ->
  endpoints local app w
  = (Returns (serviceHost, serviceScheme, appHost, appScheme), w) ->
  (url_Parse (serviceScheme +:+ "://" +:+ serviceHost) = Err e
   \/ (parses (serviceScheme +:+ "://" +:+ serviceHost) = true
       /\ url_Parse (appScheme +:+ "://" +:+ appHost) = Err e)) ->
  NewSession path local w = (Returns (None, Some e), w).
Proof.
  intros Hread Hends Hfail.
  unfold NewSession, bind at 1. rewrite Hread.
  unfold bind at 1. rewrite Hends.
  destruct Hfail as [-> | [Hok ->]]; [reflexivity | ].
  unfold parses in Hok.
  destruct (url_Parse (serviceScheme +:+ "://" +:+ serviceHost));
    [reflexivity | discriminate].
Qed.

Lemma loadTrays_world (session : Session) (w : World) :
  snd (loadTrays session w) = w.
Proof.
  destruct (homeDir w) as [home | ] eqn:Hhome.
  - destruct (loadTrays_returns session w home Hhome) as (trays & readerr & ->).
    reflexivity.
  - unfold loadTrays, bind at 1.
    rewrite (cookieFileName_no_home session w Hhome). reflexivity.
Qed.

(** X25.  [NewSession] only reads: whatever it comes to -- a session, an
    error or a panic -- the files, the terminal and the list of requests
    sent are what they were. *)
Theorem NewSession_read_only (path : string) (local : bool) (w : World) :
  snd (NewSession path local w) = w.
Proof.
  destruct (readApp_returns path w) as (app & err & Hread).
  unfold NewSession, bind at 1. rewrite Hread. unfold bind at 1.
  assert (endpoints local app w = (Panics nilDereference, w)
          \/ exists hosts, endpoints local app w = (Returns hosts, w)) as Hends.
  { unfold endpoints. destruct local; [right; eexists; reflexivity | ].
    destruct app; [right; eexists; reflexivity | left; reflexivity]. }
  destruct Hends as [-> | [[[[sh ss] ah] asch] ->]]; [reflexivity | ].
  destruct (url_Parse (ss +:+ "://" +:+ sh)); [ | reflexivity].
  destruct (url_Parse (asch +:+ "://" +:+ ah)); [ | reflexivity].
  unfold bind.
  match goal with
  | |- context [loadTrays ?s w] =>
      pose proof (loadTrays_world s w) as Hsame;
      destruct (loadTrays s w) as [[[cookieTrays readerr] | msg] w']
  end; cbn [snd] in Hsame; subst w'; reflexivity.
Qed.

End Coverage.

(** ** The further properties on the sample runs *)

Import MoreExamples.

Lemma Is_stray_space_panics_witness :
  (exists msg, Is deployCommand "" = Panics msg)
  /\ (exists msg, Is deployCommand (" " +:+ "app") = Panics msg)
  /\ (exists msg, Is deployCommand ("deploy" +:+ " ") = Panics msg)
  /\ (exists msg, Is deployCommand ("deploy" +:+ " " +:+ " " +:+ "app")
                  = Panics msg).
Proof.
  apply (Is_stray_space_panics deployCommand "deploy" "app").
  intros v. vm_compute. discriminate.
Defined.

Lemma parseValues_last_line_wins_witness :
  parseValues ("Auth=old" +:+ String newline ("Auth" +:+ "=" +:+ "new"))
    !! "Auth" = Some "new"
  /\ parseValues ("Auth=old" +:+ String newline
                    (("Auth" +:+ "=" +:+ "new") +:+ String newline ""))
     !! "Auth" = Some "new".
Proof.
  apply (parseValues_last_line_wins "Auth=old" "Auth" "new"); reflexivity.
Defined.

Lemma Signin_identity_failure_witness :
  exists w',
    @Signin Sim.platform (remoteSession myapp) (world unreachable withApp)
    = (Returns (Some (LibraryError "net" "dial tcp: connection refused")), w')
    /\ files w' = files (world unreachable withApp)
    /\ requests w'
       = requests (world unreachable withApp)
         ++ [clientLoginURL "alice" "secret"].
Proof.
  eapply (@Signin_identity_failure Sim.platform (remoteSession myapp)
            (world unreachable withApp) _ "alice" "secret" None).
  - reflexivity.
  - reflexivity.
  - left. reflexivity.
Defined.

Lemma Signin_create_failure_witness :
  files (snd (@Signin Sim.platform (localSession (Some myapp))
                (readOnlyHome accepting)))
  = files (readOnlyHome accepting)
  /\ fst (@Signin Sim.platform (localSession (Some myapp))
            (readOnlyHome accepting)) <> Returns None
  /\ (Local (localSession (Some myapp)) = true ->
      is_Some (Session_App (localSession (Some myapp))) ->
      is_Some (AppURL (localSession (Some myapp))) ->
      is_Some (ServiceURL (localSession (Some myapp))) ->
      fst (@Signin Sim.platform (localSession (Some myapp))
             (readOnlyHome accepting)) = Returns (Some ErrInvalid)).
Proof.
  apply (@Signin_create_failure Sim.platform (localSession (Some myapp))
           (readOnlyHome accepting) "/home/u").
  - reflexivity.
  - vm_compute. reflexivity.
Defined.

Lemma Signin_success_persisted_witness :
  exists home trays,
    homeDir (world accepting withApp) = Some home
    /\ files (snd (@Signin Sim.platform (remoteSession myapp)
                     (world accepting withApp)))
       = <[home +:+ "/.cookies" := Sim.encode trays]>
           (files (world accepting withApp))
    /\ map Path trays
       = ["https" +:+ "://" +:+ "myapp.appspot.com";
          "https" +:+ "://" +:+ "appengine.google.com"].
Proof.
  apply (@Signin_success_persisted Sim.platform (remoteSession myapp)
           (world accepting withApp)).
  vm_compute. reflexivity.
Defined.

Lemma Signin_only_cookie_file_witness :
  files (snd (@Signin Sim.platform (remoteSession myapp)
                (world accepting withApp))) !! "/srv/app/app.yaml"
  = files (world accepting withApp) !! "/srv/app/app.yaml".
Proof.
  apply (@Signin_only_cookie_file Sim.platform (remoteSession myapp)
           (world accepting withApp) "/srv/app/app.yaml").
  intros home Hhome Heq. inversion Hhome; subst home. vm_compute in Heq.
  discriminate.
Defined.

Lemma Signin_local_requests_witness :
  requests (snd (@Signin Sim.platform (localSession (Some noapp))
                   (world accepting withApp)))
  = requests (world accepting withApp)
    ++ serviceLoginURL (localSession (Some noapp)) (loginValues true "alice" ∅)
       :: (if (0 <? String.length (Application noapp))%nat
           then [appLoginURL (localSession (Some noapp))
                   (loginValues true "alice" ∅)]
           else []).
Proof.
  eapply (@Signin_local_requests Sim.platform (localSession (Some noapp))
            (world accepting withApp) _ "alice" "secret" None noapp).
  - reflexivity.
  - reflexivity.
  - reflexivity.
  - vm_compute. reflexivity.
  - vm_compute. reflexivity.
Defined.

Lemma Signin_remote_requests_witness :
  requests (snd (@Signin Sim.platform (remoteSession myapp)
                   (world accepting withApp)))
  = requests (world accepting withApp)
    ++ clientLoginURL "alice" "secret"
       :: ("https" +:+ "://" +:+ "appengine.google.com" +:+ "/_ah/login?"
           +:+ "auth="
           +:+ url_QueryEscape (default "" (parseValues tokens !! "Auth"))
           +:+ "&continue=http%3A%2F%2Flocalhost")
       :: (if (0 <? String.length (Application myapp))%nat
           then ["https" +:+ "://" +:+ (Application myapp +:+ ".appspot.com")
                 +:+ "/_ah/login?" +:+ "auth="
                 +:+ url_QueryEscape (default "" (parseValues tokens !! "Auth"))
                 +:+ "&continue=http%3A%2F%2Flocalhost"]
           else []).
Proof.
  eapply (@Signin_remote_requests Sim.platform (remoteSession myapp)
            (world accepting withApp) _ "alice" "secret" None false [] tokens
            myapp).
  - reflexivity.
  - reflexivity.
  - reflexivity.
  - reflexivity.
  - vm_compute. reflexivity.
  - vm_compute. reflexivity.
  - vm_compute. reflexivity.
Defined.

Lemma Signin_then_loadTrays_witness :
  exists trays,
    @loadTrays Sim.platform (localSession None)
      (snd (@Signin Sim.platform (remoteSession myapp)
              (world accepting withApp)))
    = (Returns (trays, None),
       snd (@Signin Sim.platform (remoteSession myapp)
              (world accepting withApp)))
    /\ map Path trays
       = ["https" +:+ "://" +:+ "myapp.appspot.com";
          "https" +:+ "://" +:+ "appengine.google.com"].
Proof.
  apply (@Signin_then_loadTrays Sim.platform (remoteSession myapp)
           (localSession None) (world accepting withApp)).
  - apply SimFacts.decode_encode.
  - vm_compute. reflexivity.
Defined.

Lemma Signin_then_Signout_witness :
  exists w2,
    @Signout Sim.platform (remoteSession myapp)
      (snd (@Signin Sim.platform (remoteSession myapp)
              (world accepting withApp)))
    = (Returns None, w2)
    /\ files w2 !! ("/home/u" +:+ "/.cookies") = None
    /\ forall name, name <> "/home/u" +:+ "/.cookies" ->
         files w2 !! name = files (world accepting withApp) !! name.
Proof.
  apply (@Signin_then_Signout Sim.platform (remoteSession myapp)
           (remoteSession myapp) (world accepting withApp)
           (snd (@Signin Sim.platform (remoteSession myapp)
                   (world accepting withApp))) "/home/u").
  - vm_compute. reflexivity.
  - vm_compute. reflexivity.
  - vm_compute. intros Hin. discriminate.
Defined.

Lemma Signout_twice_witness :
  @Signout Sim.platform (localSession None)
    (snd (@Signout Sim.platform (remoteSession myapp)
            (world accepting corruptCookies)))
  = (Returns (Some (notExist "remove" ("/home/u" +:+ "/.cookies"))),
     snd (@Signout Sim.platform (remoteSession myapp)
            (world accepting corruptCookies))).
Proof.
  apply (@Signout_twice Sim.platform (remoteSession myapp) (localSession None)
           (world accepting corruptCookies) "/home/u").
  - reflexivity.
  - apply not_elem_of_empty.
Defined.

Lemma Signout_only_cookie_file_witness :
  files (snd (@Signout Sim.platform (remoteSession myapp)
                (world accepting corruptCookies))) !! "/srv/app/app.yaml"
  = files (world accepting corruptCookies) !! "/srv/app/app.yaml"
  /\ requests (snd (@Signout Sim.platform (remoteSession myapp)
                      (world accepting corruptCookies)))
     = requests (world accepting corruptCookies).
Proof.
  apply (@Signout_only_cookie_file Sim.platform (remoteSession myapp)
           (world accepting corruptCookies) "/srv/app/app.yaml").
  intros home Hhome Heq. inversion Hhome; subst home. vm_compute in Heq.
  discriminate.
Defined.

Lemma cookieFileName_without_user_witness :
  @Signout Sim.platform (remoteSession myapp) homeless
  = (Panics nilDereference, homeless)
  /\ @saveTrays Sim.platform (remoteSession myapp) sampleTrays homeless
     = (Panics nilDereference, homeless)
  /\ @loadTrays Sim.platform (remoteSession myapp) homeless
     = (Panics nilDereference, homeless).
Proof.
  apply (@cookieFileName_without_user Sim.platform (remoteSession myapp)
           sampleTrays homeless).
  reflexivity.
Defined.

Lemma saveTrays_replaces_witness :
  files (snd (@saveTrays Sim.platform (localSession None) sampleTrays
                (snd (@saveTrays Sim.platform (remoteSession myapp) mixedTrays
                        (world accepting withApp)))))
  = files (snd (@saveTrays Sim.platform (localSession None) sampleTrays
                  (world accepting withApp)))
  /\ @loadTrays Sim.platform (remoteSession noapp)
       (snd (@saveTrays Sim.platform (localSession None) sampleTrays
               (snd (@saveTrays Sim.platform (remoteSession myapp) mixedTrays
                       (world accepting withApp)))))
     = (Returns (sampleTrays, None),
        snd (@saveTrays Sim.platform (localSession None) sampleTrays
               (snd (@saveTrays Sim.platform (remoteSession myapp) mixedTrays
                       (world accepting withApp))))).
Proof.
  apply (@saveTrays_replaces Sim.platform (remoteSession myapp)
           (localSession None) (remoteSession noapp) mixedTrays sampleTrays
           (world accepting withApp)
           (snd (@saveTrays Sim.platform (remoteSession myapp) mixedTrays
                   (world accepting withApp)))).
  - apply SimFacts.decode_encode.
  - reflexivity.
  - reflexivity.
Defined.

Lemma readCredentials_two_lines_witness :
  fst (readCredentials (world accepting withApp))
  = Returns ("alice", "secret", None)
  /\ input (tty (snd (readCredentials (world accepting withApp)))) = [].
Proof.
  apply (readCredentials_two_lines (world accepting withApp) "alice" "secret" []);
    reflexivity.
Defined.

Lemma readCredentials_short_input_witness :
  (input (tty (withTty nameOnly accepting withApp)) = [] ->
   fst (readCredentials (withTty nameOnly accepting withApp))
   = Returns ("", "", None))
  /\ (forall username,
        input (tty (withTty nameOnly accepting withApp)) = [username] ->
        fst (readCredentials (withTty nameOnly accepting withApp))
        = Returns (username, "", None)
        /\ input (tty (snd (readCredentials
                              (withTty nameOnly accepting withApp)))) = []).
Proof.
  apply (readCredentials_short_input (withTty nameOnly accepting withApp)).
  reflexivity.
Defined.


Lemma NewSession_parse_failure_witness :
  @NewSession Strict.platform "/srv/app" false
    (world accepting spacedDescriptor)
  = (Returns (None,
              Some (LibraryError "url" "invalid character in host name")),
     world accepting spacedDescriptor).
Proof.
  eapply (@NewSession_parse_failure Strict.platform "/srv/app" false
            (world accepting spacedDescriptor)
            (Some {| Application := "my app"; Version := ""; Runtime := "";
                     APIVersion := ""; Handlers := [] |}) None
            "appengine.google.com" "https" "my app.appspot.com" "https").
  - vm_compute. reflexivity.
  - reflexivity.
  - right. split; vm_compute; reflexivity.
Defined.

(** ** Where two claims fail *)


(** C10, where the claim fails.  The query asks for [a] and [b] with a tab
    between them.  Its whitespace-separated terms are [a] and [b], and the
    map holds true for both: the claim expects true.  [Is] cuts at the
    space only, looks up the whole query as one term and panics. *)
Lemma Is_tab_counterexample :
  String.words tabbed = ["a"; "b"]
  /\ (forall term, term ∈ String.words tabbed ->
        M abCommand !! term = Some (VBool true))
  /\ Is abCommand tabbed
     = Panics "interface conversion: interface {} is nil, not bool"
  /\ ~ (exists r, Is abCommand tabbed = Returns r).
Proof.
  split; [reflexivity | ]. split; [ | split].
  - intros term Hin. apply list_elem_of_In in Hin. vm_compute in Hin.
    destruct Hin as [<- | [<- | []]]; reflexivity.
  - reflexivity.
  - intros [r Hrun]. vm_compute in Hrun. discriminate.
Qed.

Lemma Command_Is_single_space_witness :
  exists r, Is deployCommand "deploy status" = Returns r
    /\ (r = true <->
        forall term, term ∈ ["deploy"; "status"] ->
          M deployCommand !! term = Some (VBool true)).
Proof.
  apply (proj2 (Command_Is_single_space deployCommand "deploy status")
           ["deploy"; "status"]).
  - discriminate.
  - intros term Hin. apply list_elem_of_In in Hin. vm_compute in Hin.
    destruct Hin as [<- | [<- | []]]; reflexivity.
  - reflexivity.
  - intros term Hin. apply list_elem_of_In in Hin. vm_compute in Hin.
    destruct Hin as [<- | [<- | []]]; [exists true | exists false];
      reflexivity.
Defined.
